(** * audio_transcribe: segment-to-artifact pipeline

    A shallow embedding of [audio_transcribe.py]: the timestamp formatter
    ([format_td], [format_to_srt_ts]) and the [transcribe] driver that drains
    the engine's segment generator and writes the [.txt] / [.srt] artifacts.

    Python values are modelled as the interpreter has them:
    - [float] is an IEEE-754 binary64, here [spec_float] with the library's
      [SFmul 53 1024] (round to nearest, ties to even);
    - [int] is [Z];
    - [str] is [string]; the characters are code points below 256, and a
      file holds the text written to it (the UTF-8 encoding is a function
      of that text);
    - exceptions are a result type threaded through a small monad;
    - the working directory, the files, the standard output and the log of
      [open] calls are an explicit world record. Paths are POSIX paths. A
      file operation fails when the file cannot be opened, and [print]
      fails on the lines the world marks as unprintable; the writes to an
      open file always succeed.

    The library functions the script calls ([round], [divmod],
    [timedelta], [str.strip], [Path.stem], [open], [writelines]) follow
    CPython 3.11 and its [datetime] and [pathlib] modules. *)

From Stdlib Require Import ZArith Lia List Bool Ascii String.
From Stdlib Require Import Floats.SpecFloat.
From stdpp Require Import base gmap strings.

Local Open Scope string_scope.
Local Open Scope Z_scope.

(** ** Exceptions *)

Inductive exn : Type :=
  | ValueError
  | OverflowError
  | OSError
  | UnicodeEncodeError
  | EngineError.

Inductive result (A : Type) : Type :=
  | Ok (a : A)
  | Raise (e : exn).
Arguments Ok {A} a.
Arguments Raise {A} e.

#[global] Instance result_ret : MRet result := fun A a => Ok a.
#[global] Instance result_bind : MBind result := fun A B k r =>
  match r with
  | Ok a => k a
  | Raise e => Raise e
  end.

(** ** Python floats *)

Module PyFloat.

Definition float := spec_float.

Definition prec : Z := 53.
Definition emax : Z := 1024.

Definition fmul (x y : float) : float := SFmul prec emax x y.
Definition fdiv (x y : float) : float := SFdiv prec emax x y.

(** [float(z)] for an [int]: the nearest binary64, or [OverflowError]. *)
Definition float_of_int (z : Z) : result float :=
  match binary_normalize prec emax z 0 false with
  | S754_infinity _ => Raise OverflowError
  | x => Ok x
  end.

(** The nearest integer to [num / den] ([den > 0]), ties to even. *)
Definition round_half_even (num den : Z) : Z :=
  let q := num / den in
  let r := num mod den in
  match 2 * r ?= den with
  | Lt => q
  | Gt => q + 1
  | Eq => if Z.even q then q else q + 1
  end.

(** The magnitude of a finite float, scaled by [k], rounded to an integer. *)
Definition scaled_magnitude (k : Z) (m : positive) (e : Z) : Z :=
  match e with
  | Zneg p => round_half_even (k * Zpos m) (2 ^ Zpos p)
  | _ => k * Zpos m * 2 ^ e
  end.

(** [round(x)] with one argument: [float.__round__] returns an [int]. *)
Definition py_round (x : float) : result Z :=
  match x with
  | S754_nan => Raise ValueError
  | S754_infinity _ => Raise OverflowError
  | S754_zero _ => Ok 0
  | S754_finite s m e =>
      let a := scaled_magnitude 1 m e in
      Ok (if s then - a else a)
  end.

(** The decimal literal [m]e[-k] as the parser reads it, the nearest
    binary64: one correctly rounded division, for [m] and [10^k] exactly
    representable, and the rounding of [m] itself when [k = 0]. *)
Definition literal (m : Z) (k : nat) : float :=
  fdiv (binary_normalize prec emax m 0 false)
       (binary_normalize prec emax (10 ^ Z.of_nat k) 0 false).

Definition nan : float := S754_nan.
Definition inf : float := S754_infinity false.

Definition is_finite (x : float) : bool :=
  match x with
  | S754_zero _ | S754_finite _ _ _ => true
  | _ => false
  end.

Definition is_negative (x : float) : bool :=
  match x with
  | S754_finite true _ _ => true
  | _ => false
  end.

End PyFloat.

(** ** Python strings and integers as text *)

Module PyStr.

Definition digit_char (d : Z) : ascii :=
  ascii_of_nat (48 + Z.to_nat d).

(** The decimal digits of a non-negative [n], most significant first. *)
Fixpoint digits_of (fuel : nat) (n : Z) (acc : string) : string :=
  match fuel with
  | O => acc
  | S fuel' =>
      let acc' := String (digit_char (n mod 10)) acc in
      if n / 10 =? 0 then acc' else digits_of fuel' (n / 10) acc'
  end.

(** [str(n)] and ["%d" % n] for an [int]. *)
Definition str_of_int (n : Z) : string :=
  match n with
  | Zneg p => String "-" (digits_of (S (Z.to_nat (Z.log2 (Zpos p)))) (Zpos p) "")
  | _ => digits_of (S (Z.to_nat (Z.log2 n))) n ""
  end.

Fixpoint replicate (n : nat) (c : ascii) : string :=
  match n with
  | O => ""
  | S n' => String c (replicate n' c)
  end.

(** [s.rjust(width, fill)], the [{s:fill>width}] of a format spec. *)
Definition rjust (fill : ascii) (width : nat) (s : string) : string :=
  replicate (width - String.length s) fill ++ s.

(** ["%0wd" % n] for a non-negative [n]. *)
Definition zero_padded (width : nat) (n : Z) : string :=
  rjust "0" width (str_of_int n).

(** [str.isspace] on one character, for the code points below 256. *)
Definition is_space (c : ascii) : bool :=
  let n := N_of_ascii c in
  ((9 <=? n) && (n <=? 13) || (28 <=? n) && (n <=? 32)
   || (n =? 133) || (n =? 160))%N.

Fixpoint lstrip (s : string) : string :=
  match s with
  | String c s' => if is_space c then lstrip s' else s
  | EmptyString => EmptyString
  end.

Fixpoint rstrip (s : string) : string :=
  match s with
  | String c s' =>
      match rstrip s' with
      | EmptyString => if is_space c then EmptyString else String c EmptyString
      | r => String c r
      end
  | EmptyString => EmptyString
  end.

(** [s.strip()] *)
Definition strip (s : string) : string := rstrip (lstrip s).

(** [''.join(parts)] *)
Definition join (parts : list string) : string :=
  fold_right String.append "" parts.

(** Fixed-point text of a non-negative count [n] of [10^-precision]
    units: the [f] presentation type. *)
Definition fixed_point (precision : nat) (n : Z) : string :=
  let unit := 10 ^ Z.of_nat precision in
  match precision with
  | O => str_of_int n
  | _ => str_of_int (n / unit) ++ "." ++ zero_padded precision (n mod unit)
  end.

(** [format(x, '.<precision>f')] for a float: the exact binary value
    rounded to [precision] decimals, ties to even. *)
Definition format_f (precision : nat) (x : PyFloat.float) : string :=
  match x with
  | S754_nan => "nan"
  | S754_infinity s => if s then "-inf" else "inf"
  | S754_zero s => (if s then "-" else "") ++ fixed_point precision 0
  | S754_finite s m e =>
      (if s then "-" else "")
      ++ fixed_point precision
           (PyFloat.scaled_magnitude (10 ^ Z.of_nat precision) m e)
  end.

(** The sign-aware zero fill of [format(x, '0<width>.<precision>f')]. *)
Definition zero_fill (width : nat) (s : string) : string :=
  match s with
  | String "-" body => String "-" (rjust "0" (width - 1) body)
  | _ => rjust "0" width s
  end.

Definition nl : string := String (ascii_of_nat 10) "".

End PyStr.

(** ** [datetime.timedelta] *)

Module DateTime.

Record timedelta : Type :=
  { days : Z; seconds : Z; microseconds : Z }.

(** [timedelta(seconds=s)] for an [int] [s]: normalised so that
    [0 <= seconds < 86400]; the day count is limited to nine digits. *)
Definition of_seconds (s : Z) : result timedelta :=
  let d := s / 86400 in
  if Z.abs d >? 999999999 then Raise OverflowError
  else Ok {| days := d; seconds := s mod 86400; microseconds := 0 |}.

(** [timedelta.__str__] *)
Definition str (td : timedelta) : string :=
  let mm := seconds td / 60 in
  let ss := seconds td mod 60 in
  let hh := mm / 60 in
  let mm := mm mod 60 in
  let s := PyStr.str_of_int hh ++ ":" ++ PyStr.zero_padded 2 mm
           ++ ":" ++ PyStr.zero_padded 2 ss in
  let s := if days td =? 0 then s
           else PyStr.str_of_int (days td) ++ " day"
                ++ (if Z.abs (days td) =? 1 then "" else "s") ++ ", " ++ s in
  if microseconds td =? 0 then s
  else s ++ "." ++ PyStr.zero_padded 6 (microseconds td).

End DateTime.

(** ** The timestamp formatter *)

(** [format_td(seconds, separator='.', digits=2)]. The only callers pass
    [digits] 2 and 3; it is a [nat] here. *)
Definition format_td (seconds : PyFloat.float) (separator : string)
    (digits : nat) : result string :=
  scale ← PyFloat.float_of_int (10 ^ Z.of_nat digits);
  n ← PyFloat.py_round (PyFloat.fmul seconds scale);
  let isec := n / 10 ^ Z.of_nat digits in
  let fsec := n mod 10 ^ Z.of_nat digits in
  td ← DateTime.of_seconds isec;
  ffsec ← PyFloat.float_of_int fsec;
  mret (PyStr.rjust "0" 8 (DateTime.str td) ++ separator
        ++ PyStr.zero_fill digits (PyStr.format_f 0 ffsec)).

(** [format_td(seconds)] with the default arguments. *)
Definition format_td_default (seconds : PyFloat.float) : result string :=
  format_td seconds "." 2.

Definition format_to_srt_ts (seconds : PyFloat.float) : result string :=
  format_td seconds "," 3.

(** ** [pathlib]: the stem of a POSIX path *)

Module PathLib.

(** [s.split(sep)] for a one-character separator. *)
Fixpoint split (sep : ascii) (s : string) : list string :=
  match s with
  | EmptyString => [EmptyString]
  | String c s' =>
      if Ascii.eqb c sep then EmptyString :: split sep s'
      else match split sep s' with
           | h :: t => String c h :: t
           | [] => [String c EmptyString]
           end
  end.

(** The components kept by the parser: neither empty nor ["."]. *)
Definition is_part (x : string) : bool :=
  negb (String.eqb x "") && negb (String.eqb x ".").

Definition tail (path : string) : list string :=
  filter (fun x => is_part x = true) (split "/" path).

(** [PurePath.name]: the final component, [''] when there is none. *)
Definition name (path : string) : string :=
  List.last (tail path) "".

(** [s.rfind(c)]: the highest index of [c] in [s], or [-1]. *)
Fixpoint rfind (c : ascii) (s : string) : Z :=
  match s with
  | EmptyString => -1
  | String a s' =>
      let i := rfind c s' in
      if i =? -1 then (if Ascii.eqb a c then 0 else -1) else i + 1
  end.

(** [PurePath.stem]: the name without its last suffix; a leading or a
    trailing dot does not start a suffix. *)
Definition stem (path : string) : string :=
  let n := name path in
  let i := rfind "." n in
  if (0 <? i) && (i <? Z.of_nat (String.length n) - 1)
  then substring 0 (Z.to_nat i) n
  else n.

End PathLib.

(** ** The world: working directory, files, standard output *)

Record world : Type :=
  { cwd : string;                 (* current working directory, absolute *)
    files : gmap string string;   (* absolute path -> content *)
    denied : gset string;         (* absolute paths that cannot be opened *)
    stdout : list string;         (* lines printed so far *)
    unprintable : gmap string exn; (* lines [print] raises on, with the exception *)
    opened : list string }.       (* every path passed to [open], in order *)

Definition io (A : Type) : Type := world -> result A * world.

#[global] Instance io_ret : MRet io := fun A a w => (Ok a, w).
#[global] Instance io_bind : MBind io := fun A B k m w =>
  match m w with
  | (Ok a, w') => k a w'
  | (Raise e, w') => (Raise e, w')
  end.

Definition lift {A : Type} (r : result A) : io A := fun w => (r, w).

Definition with_stdout (w : world) (out : list string) : world :=
  {| cwd := cwd w; files := files w; denied := denied w;
     stdout := out; unprintable := unprintable w; opened := opened w |}.

Definition with_files (w : world) (fs : gmap string string) : world :=
  {| cwd := cwd w; files := fs; denied := denied w;
     stdout := stdout w; unprintable := unprintable w; opened := opened w |}.

Definition with_opened (w : world) (log : list string) : world :=
  {| cwd := cwd w; files := files w; denied := denied w;
     stdout := stdout w; unprintable := unprintable w; opened := log |}.

(** [print(line)]: the line is appended to the output, or the call raises
    (a text the stream cannot encode, a closed pipe) and prints nothing. *)
Definition print (line : string) : io unit := fun w =>
  match unprintable w !! line with
  | Some e => (Raise e, w)
  | None => (Ok tt, with_stdout w (stdout w ++ [line])%list)
  end.

(** A relative path is resolved against the working directory. *)
Definition resolve (dir path : string) : string :=
  match path with
  | String "/" _ => path
  | _ => dir ++ "/" ++ path
  end.

(** [open(path, 'w', encoding='utf-8')]: creates or truncates the file, or
    raises [OSError]; the handle is the resolved path. *)
Definition open_w (path : string) : io string := fun w =>
  let p := resolve (cwd w) path in
  let w' := with_opened w (opened w ++ [p])%list in
  if decide (p ∈ denied w) then (Raise OSError, w')
  else (Ok p, with_files w' (<[p := ""]> (files w'))).

Definition write (h data : string) : io unit := fun w =>
  (Ok tt, with_files w (alter (fun content => content ++ data) h (files w))).

(** [f.writelines(lines)]: one [write] per element, no separator added. *)
Fixpoint writelines (h : string) (lines : list string) : io unit :=
  match lines with
  | [] => mret tt
  | l :: rest => _ ← write h l; writelines h rest
  end.

(** ** The inference engine, as [transcribe] consumes it *)

Record Segment : Type :=
  { seg_id : Z; seg_start : PyFloat.float; seg_end : PyFloat.float;
    seg_text : string }.

Record TranscriptionInfo : Type :=
  { language : string; language_probability : PyFloat.float }.

(** The generator returned by the engine: it yields segments one by one
    and either stops or raises. *)
Inductive generator : Type :=
  | GenStop
  | GenYield (s : Segment) (rest : generator)
  | GenRaise (e : exn).

Record WhisperModel : Type :=
  { wm_transcribe : string -> Z -> result (generator * TranscriptionInfo) }.

(** The constructor [WhisperModel(model_size, device=, compute_type=)]. *)
Definition loader : Type := string -> string -> string -> result WhisperModel.

(** ** [transcribe] *)

Definition segment_tuple : Type := PyFloat.float * PyFloat.float * string.

Definition language_line (info : TranscriptionInfo) : string :=
  "Detected language: '" ++ language info ++ "' with probability "
  ++ PyStr.format_f 6 (language_probability info).

Definition progress_line (s : Segment) : string :=
  "[" ++ PyStr.format_f 2 (seg_start s) ++ "s -> "
  ++ PyStr.format_f 2 (seg_end s) ++ "s] " ++ seg_text s.

(** The [for segment in segments] loop: each yielded segment is printed
    when [verbose] and appended; an exception of the generator leaves the
    loop and the function. *)
Fixpoint drain (verbose : bool) (segments : generator)
    (transcribed_segments : list segment_tuple) : io (list segment_tuple) :=
  match segments with
  | GenStop => mret transcribed_segments
  | GenYield s rest =>
      _ ← (if verbose then print (progress_line s) else mret tt);
      drain verbose rest
        (transcribed_segments ++ [(seg_start s, seg_end s, seg_text s)])%list
  | GenRaise e => lift (Raise e)
  end.

(** The text lines handed to the [.txt] writer: [s[2] for s in ...]. *)
Definition txt_lines (transcribed_segments : list segment_tuple) : list string :=
  map (fun s => snd s) transcribed_segments.

(** One element of [groups]. *)
Definition srt_group (counter : Z) (s : segment_tuple) : result string :=
  ts_start ← format_to_srt_ts (fst (fst s));
  ts_end ← format_to_srt_ts (snd (fst s));
  mret (PyStr.str_of_int counter ++ PyStr.nl
        ++ ts_start ++ " --> " ++ ts_end ++ PyStr.nl
        ++ PyStr.strip (snd s) ++ PyStr.nl ++ PyStr.nl).

(** The list comprehension over [enumerate(transcribed_segments, counter)]. *)
Fixpoint srt_groups (counter : Z) (transcribed_segments : list segment_tuple)
    : result (list string) :=
  match transcribed_segments with
  | [] => mret []
  | s :: rest =>
      g ← srt_group counter s;
      gs ← srt_groups (counter + 1) rest;
      mret (g :: gs)
  end.

(** The body of [if output_txt]. *)
Definition write_txt (filename : string)
    (transcribed_segments : list segment_tuple) : io unit :=
  txt_writer ← open_w (filename ++ ".txt");
  writelines txt_writer (txt_lines transcribed_segments).

(** The body of [if output_srt]. *)
Definition write_srt (filename : string)
    (transcribed_segments : list segment_tuple) : io unit :=
  srt_writer ← open_w (filename ++ ".srt");
  groups ← lift (srt_groups 1 transcribed_segments);
  writelines srt_writer groups.

(** The second half of [transcribe] (source lines 60-72): the two [with
    open] blocks, the [.txt] one first; in the [.srt] one [groups] is built
    after the file is opened. *)
Definition write_outputs (filepath : string) (output_txt output_srt : bool)
    (transcribed_segments : list segment_tuple) : io unit :=
  if output_txt || output_srt then
    let filename := PathLib.stem filepath in
    _ ← (if output_txt then write_txt filename transcribed_segments
         else mret tt);
    if output_srt then write_srt filename transcribed_segments else mret tt
  else mret tt.

(** The first half of [transcribe] (source lines 45-58): the engine call,
    the optional language line, the draining loop. *)
Definition collect (engine : loader) (verbose : bool)
    (model_size device compute_type filepath : string)
    : io (list segment_tuple) :=
  model ← lift (engine model_size device compute_type);
  r ← lift (wm_transcribe model filepath 5);
  _ ← (if verbose then print (language_line (snd r)) else mret tt);
  drain verbose (fst r) [].

Definition transcribe (engine : loader) (verbose : bool)
    (model_size device compute_type filepath : string)
    (output_txt output_srt : bool) : io unit :=
  transcribed_segments ←
    collect engine verbose model_size device compute_type filepath;
  write_outputs filepath output_txt output_srt transcribed_segments.

(** An engine that loads and returns the given generator. *)
Definition engine_yielding (g : generator) (info : TranscriptionInfo) : loader :=
  fun _ _ _ => Ok {| wm_transcribe := fun _ _ => Ok (g, info) |}.

Definition segments_of (l : list Segment) : generator :=
  fold_right GenYield GenStop l.

Definition english : TranscriptionInfo :=
  {| language := "en"; language_probability := PyFloat.literal 98 2 |}.

Definition empty_world (dir : string) : world :=
  {| cwd := dir; files := ∅; denied := ∅; stdout := []; unprintable := ∅;
     opened := [] |}.

Definition hello_world : list Segment :=
  [ {| seg_id := 7; seg_start := PyFloat.literal 0 0;
       seg_end := PyFloat.literal 15 1; seg_text := "Hello." |};
    {| seg_id := 3; seg_start := PyFloat.literal 15 1;
       seg_end := PyFloat.literal 325 2; seg_text := " World." |} ].

(** * Definitions used in the statements *)

Definition all_below (P : Z -> bool) (n : N) : bool :=
  snd (N.iter n (fun st => (fst st + 1, snd st && P (fst st))) (0, true)).

(** Exactly [d] decimal digits of [f], least significant last. *)
Fixpoint fixed_digits (d : nat) (f : Z) : string :=
  match d with
  | O => ""
  | S d' => fixed_digits d' (f / 10) ++ String (PyStr.digit_char (f mod 10)) ""
  end.

(** The fractional field [f'{fsec:0{digits}.0f}'] of an in-range [fsec]. *)
Definition frac_field_is (digits : nat) (fsec : Z) : bool :=
  match PyFloat.float_of_int fsec with
  | Ok ffsec =>
      String.eqb (PyStr.zero_fill digits (PyStr.format_f 0 ffsec))
                 (fixed_digits digits fsec)
  | Raise _ => false
  end.

(** The scale factor [10**digits] as a float, for the two presets. *)
Definition scale (digits : nat) : PyFloat.float :=
  binary_normalize PyFloat.prec PyFloat.emax (10 ^ Z.of_nat digits) 0 false.

(** [round(seconds*10**digits)], the count the formatter splits. *)
Definition rounded_count (seconds : PyFloat.float) (digits : nat) : result Z :=
  PyFloat.py_round (PyFloat.fmul seconds (scale digits)).

(** The text [format_td] builds from the rounded count [n]. *)
Definition rendered (n : Z) (separator : string) (digits : nat) : string :=
  let isec := n / 10 ^ Z.of_nat digits in
  PyStr.rjust "0" 8
    (DateTime.str {| DateTime.days := isec / 86400;
                     DateTime.seconds := isec mod 86400;
                     DateTime.microseconds := 0 |})
  ++ separator ++ fixed_digits digits (n mod 10 ^ Z.of_nat digits).

Definition clock (isec : Z) : string :=
  fixed_digits 2 (isec / 3600) ++ ":" ++ fixed_digits 2 (isec / 60 mod 60)
  ++ ":" ++ fixed_digits 2 (isec mod 60).

Definition two_digits_is (x : Z) : bool :=
  String.eqb (PyStr.zero_padded 2 x) (fixed_digits 2 x).

Definition timedelta_of_count (n : Z) (digits : nat) : DateTime.timedelta :=
  let isec := n / 10 ^ Z.of_nat digits in
  {| DateTime.days := isec / 86400; DateTime.seconds := isec mod 86400;
     DateTime.microseconds := 0 |}.

(** What a generator yields before it stops, and how it stops. *)
Fixpoint yielded (g : generator) : list Segment :=
  match g with
  | GenYield s rest => s :: yielded rest
  | _ => []
  end.

Fixpoint failure (g : generator) : option exn :=
  match g with
  | GenStop => None
  | GenYield _ rest => failure rest
  | GenRaise e => Some e
  end.

Definition as_tuple (s : Segment) : segment_tuple :=
  (seg_start s, seg_end s, seg_text s).

Definition progress (verbose : bool) (l : list Segment) : list string :=
  if verbose then map progress_line l else [].

(** The engine call of [transcribe], without the world. *)
Definition engine_call (engine : loader)
    (model_size device compute_type filepath : string)
    : result (generator * TranscriptionInfo) :=
  model ← engine model_size device compute_type;
  wm_transcribe model filepath 5.

(** The segments a run collects, and the lines a verbose run prints. *)
Definition collected (call : result (generator * TranscriptionInfo))
    : result (list segment_tuple) :=
  r ← call;
  match failure (fst r) with
  | Some e => Raise e
  | None => Ok (map as_tuple (yielded (fst r)))
  end.

Definition printed (verbose : bool)
    (call : result (generator * TranscriptionInfo)) : list string :=
  match call with
  | Ok r => ((if verbose then [language_line (snd r)] else [])
             ++ progress verbose (yielded (fst r)))%list
  | Raise _ => []
  end.

Definition after_open (w : world) (p content : string) : world :=
  with_files (with_opened w (opened w ++ [p])%list)
             (<[p := content]> (files w)).

Definition txt_path (w : world) (filepath : string) : string :=
  resolve (cwd w) (PathLib.stem filepath ++ ".txt").

Definition srt_path (w : world) (filepath : string) : string :=
  resolve (cwd w) (PathLib.stem filepath ++ ".srt").

Definition stdout_blind {A : Type} (m : io A) : Prop :=
  forall w out,
    m (with_stdout w out) = (fst (m w), with_stdout (snd (m w)) out).

Definition raising_after (l : list Segment) (e : exn) : generator :=
  fold_right GenYield (GenRaise e) l.

Definition three_segments : list Segment :=
  [ {| seg_id := 0; seg_start := PyFloat.literal 0 0;
       seg_end := PyFloat.literal 1 0; seg_text := " one" |};
    {| seg_id := 1; seg_start := PyFloat.literal 1 0;
       seg_end := PyFloat.literal 2 0; seg_text := " two" |};
    {| seg_id := 2; seg_start := PyFloat.literal 2 0;
       seg_end := PyFloat.literal 3 0; seg_text := " three" |} ].

Definition failing_model : WhisperModel :=
  {| wm_transcribe := fun _ _ =>
       Ok (raising_after three_segments EngineError, english) |}.

Fixpoint contains (c : ascii) (s : string) : bool :=
  match s with
  | EmptyString => false
  | String a s' => Ascii.eqb a c || contains c s'
  end.

(** One block: ordinal, the two timestamps, the stripped text, a blank line. *)
Definition srt_block (ordinal : Z) (ts_start ts_end text : string) : string :=
  PyStr.str_of_int ordinal ++ PyStr.nl
  ++ ts_start ++ " --> " ++ ts_end ++ PyStr.nl
  ++ PyStr.strip text ++ PyStr.nl ++ PyStr.nl.

Definition timestamps_ok (s : Segment) : bool :=
  match format_to_srt_ts (seg_start s), format_to_srt_ts (seg_end s) with
  | Ok _, Ok _ => true
  | _, _ => false
  end.

Definition hello_model : WhisperModel :=
  {| wm_transcribe := fun _ _ => Ok (segments_of hello_world, english) |}.

Definition spaced_segment : list Segment :=
  [ {| seg_id := 0; seg_start := PyFloat.literal 0 0;
       seg_end := PyFloat.literal 1 0; seg_text := "  hello world  " |} ].

Definition world_denying (dir : string) (paths : gset string) : world :=
  {| cwd := dir; files := ∅; denied := paths; stdout := [];
     unprintable := ∅; opened := [] |}.

Definition digit_value (c : ascii) : option Z :=
  let n := Z.of_nat (nat_of_ascii c) in
  if (48 <=? n) && (n <=? 57) then Some (n - 48) else None.

Fixpoint int_of_digits (s : string) (acc : Z) : option Z :=
  match s with
  | EmptyString => Some acc
  | String c s' =>
      match digit_value c with
      | Some v => int_of_digits s' (10 * acc + v)
      | None => None
      end
  end.

(** The count of [10^-digits] units written as [HH:MM:SS<sep>F..F]. *)
Definition parse_timestamp (digits : nat) (s : string) : option Z :=
  match int_of_digits (substring 0 2 s) 0, int_of_digits (substring 3 2 s) 0,
        int_of_digits (substring 6 2 s) 0,
        int_of_digits (substring 9 digits s) 0 with
  | Some hh, Some mm, Some ss, Some ff =>
      if (String.length s =? 9 + digits)%nat
         && String.eqb (substring 2 1 s) ":" && String.eqb (substring 5 1 s) ":"
      then Some (((hh * 60 + mm) * 60 + ss) * 10 ^ Z.of_nat digits + ff)
      else None
  | _, _, _, _ => None
  end.

Definition digit_roundtrip (v : Z) : bool :=
  match digit_value (PyStr.digit_char v) with
  | Some v' => v' =? v
  | None => false
  end.

(** The lines a run prints after the engine call returned [(g, info)]. *)
Definition run_output (verbose : bool) (g : generator)
    (info : TranscriptionInfo) : list string :=
  if verbose then language_line info :: map progress_line (yielded g) else [].

Definition world_with_files (dir : string) (fs : gmap string string) : world :=
  {| cwd := dir; files := fs; denied := ∅; stdout := []; unprintable := ∅;
     opened := [] |}.

Definition nan_segment : list Segment :=
  [ {| seg_id := 0; seg_start := PyFloat.nan;
       seg_end := PyFloat.literal 1 0; seg_text := " lost" |} ].

Definition nan_model : WhisperModel :=
  {| wm_transcribe := fun _ _ => Ok (segments_of nan_segment, english) |}.

Definition silent_model : WhisperModel :=
  {| wm_transcribe := fun _ _ => Ok (GenStop, english) |}.

(** Every character is white space. *)
Fixpoint all_spaces (s : string) : bool :=
  match s with
  | EmptyString => true
  | String c s' => PyStr.is_space c && all_spaces s'
  end.

Definition starts_with_space (s : string) : bool :=
  match s with
  | EmptyString => false
  | String c _ => PyStr.is_space c
  end.

Fixpoint ends_with_space (s : string) : bool :=
  match s with
  | EmptyString => false
  | String c EmptyString => PyStr.is_space c
  | String _ s' => ends_with_space s'
  end.

(** No white space at either end. *)
Definition trimmed (s : string) : bool :=
  negb (starts_with_space s) && negb (ends_with_space s).

Definition renumbered_hello_world : list Segment :=
  [ {| seg_id := 1; seg_start := PyFloat.literal 0 0;
       seg_end := PyFloat.literal 15 1; seg_text := "Hello." |};
    {| seg_id := 2; seg_start := PyFloat.literal 15 1;
       seg_end := PyFloat.literal 325 2; seg_text := " World." |} ].

Definition renumbered_model : WhisperModel :=
  {| wm_transcribe := fun _ _ => Ok (segments_of renumbered_hello_world, english) |}.

(** The first line of [lines] that cannot be printed: the lines printed
    before it, and the exception. *)
Fixpoint print_failure (u : gmap string exn) (lines : list string)
    : option (list string * exn) :=
  match lines with
  | [] => None
  | l :: rest =>
      match u !! l with
      | Some e => Some ([], e)
      | None =>
          match print_failure u rest with
          | Some (done, e) => Some (l :: done, e)
          | None => None
          end
      end
  end.

Definition can_print (w : world) (line : string) : bool :=
  match unprintable w !! line with
  | None => true
  | Some _ => false
  end.

(** Every line of [lines] can be printed. *)
Definition prints_all (w : world) (lines : list string) : bool :=
  forallb (can_print w) lines.

(** A world whose output stream cannot encode the given lines. *)
Definition world_rejecting (dir : string) (lines : list string) : world :=
  {| cwd := dir; files := ∅; denied := ∅; stdout := [];
     unprintable := list_to_map (map (fun l => (l, UnicodeEncodeError)) lines);
     opened := [] |}.

(** The text [" café"]: its last character is the code point 233. *)
Definition cafe : string := " caf" ++ String (ascii_of_nat 233) "".

Definition cafe_segments : list Segment :=
  [ {| seg_id := 0; seg_start := PyFloat.literal 0 0;
       seg_end := PyFloat.literal 15 1; seg_text := "Hello." |};
    {| seg_id := 1; seg_start := PyFloat.literal 15 1;
       seg_end := PyFloat.literal 325 2; seg_text := cafe |} ].

(** The line feed character, as a one-character text. *)
Definition line_feed : string := "
".

(** One segment that starts and ends at 1e300 seconds. *)
Definition late_segment : list Segment :=
  [ {| seg_id := 0; seg_start := PyFloat.literal (10 ^ 300) 0;
       seg_end := PyFloat.literal (10 ^ 300) 0; seg_text := " late" |} ].

(** * Properties *)

(** ** Checking a decidable property on an initial segment of [Z] *)

Lemma all_below_iter (P : Z -> bool) (n : N) :
  let st := N.iter n (fun st => (fst st + 1, snd st && P (fst st))) (0, true) in
  fst st = Z.of_N n
  /\ (snd st = true -> forall z, 0 <= z < Z.of_N n -> P z = true).
Proof.
  induction n as [|n IH] using N.peano_ind; cbv zeta.
  - simpl. split; [reflexivity | intros _ z Hz; lia].
  - rewrite N.iter_succ. cbv zeta in IH. destruct IH as [Hfst Hsnd].
    destruct (N.iter n _ (0, true)) as [i b]. simpl in *. subst i.
    split; [lia|].
    intros Hb z Hz. apply andb_prop in Hb as [Hb HP].
    destruct (Z.eq_dec z (Z.of_N n)) as [->|Hne]; [exact HP|].
    apply Hsnd; [exact Hb | lia].
Qed.

Lemma Z_below_forallb (P : Z -> bool) (n : N) :
  all_below P n = true -> forall z, 0 <= z < Z.of_N n -> P z = true.
Proof. intros H. now apply (all_below_iter P n). Qed.

(** ** The formatter on the rounded count *)

Lemma length_append (a b : string) :
  String.length (a ++ b) = (String.length a + String.length b)%nat.
Proof. induction a as [|c a IH]; simpl; [reflexivity | now rewrite IH]. Qed.

Lemma fixed_digits_length (d : nat) (f : Z) :
  String.length (fixed_digits d f) = d.
Proof.
  revert f. induction d as [|d IH]; intros f; simpl; [reflexivity|].
  rewrite length_append, IH. simpl. lia.
Qed.

Lemma frac_field_2 (fsec : Z) :
  0 <= fsec < 100 -> frac_field_is 2 fsec = true.
Proof. apply (Z_below_forallb (frac_field_is 2) 100%N). vm_compute. reflexivity. Qed.

Lemma frac_field_3 (fsec : Z) :
  0 <= fsec < 1000 -> frac_field_is 3 fsec = true.
Proof. apply (Z_below_forallb (frac_field_is 3) 1000%N). vm_compute. reflexivity. Qed.

Lemma frac_field_preset (digits : nat) (fsec : Z) :
  digits = 2%nat \/ digits = 3%nat ->
  0 <= fsec < 10 ^ Z.of_nat digits ->
  exists ffsec, PyFloat.float_of_int fsec = Ok ffsec
    /\ PyStr.zero_fill digits (PyStr.format_f 0 ffsec) = fixed_digits digits fsec.
Proof.
  intros Hd Hf.
  assert (H : frac_field_is digits fsec = true).
  { destruct Hd; subst digits; [apply frac_field_2 | apply frac_field_3]; exact Hf. }
  unfold frac_field_is in H.
  destruct (PyFloat.float_of_int fsec) as [ffsec|e]; [|discriminate].
  exists ffsec. split; [reflexivity|]. now apply String.eqb_eq.
Qed.

Lemma scale_preset (digits : nat) :
  digits = 2%nat \/ digits = 3%nat ->
  PyFloat.float_of_int (10 ^ Z.of_nat digits) = Ok (scale digits).
Proof. intros [->| ->]; vm_compute; reflexivity. Qed.

Lemma format_td_of_count (seconds : PyFloat.float) (separator : string)
    (digits : nat) (n : Z) :
  digits = 2%nat \/ digits = 3%nat ->
  rounded_count seconds digits = Ok n ->
  format_td seconds separator digits =
    if Z.abs (n / 10 ^ Z.of_nat digits / 86400) >? 999999999
    then Raise OverflowError
    else Ok (rendered n separator digits).
Proof.
  intros Hd Hn. unfold format_td.
  rewrite (scale_preset digits Hd). cbn [mbind result_bind].
  unfold rounded_count in Hn. rewrite Hn. cbn [mbind result_bind].
  unfold DateTime.of_seconds.
  destruct (Z.abs (n / 10 ^ Z.of_nat digits / 86400) >? 999999999); [reflexivity|].
  cbn [mbind result_bind].
  destruct (frac_field_preset digits (n mod 10 ^ Z.of_nat digits) Hd) as (ffsec & -> & Hfill).
  { apply Z.mod_pos_bound. destruct Hd; subst; reflexivity. }
  cbn [mbind result_bind mret result_ret]. unfold rendered. now rewrite Hfill.
Qed.

Lemma format_td_of_error (seconds : PyFloat.float) (separator : string)
    (digits : nat) (e : exn) :
  digits = 2%nat \/ digits = 3%nat ->
  rounded_count seconds digits = Raise e ->
  format_td seconds separator digits = Raise e.
Proof.
  intros Hd Hn. unfold format_td.
  rewrite (scale_preset digits Hd). cbn [mbind result_bind].
  unfold rounded_count in Hn. now rewrite Hn.
Qed.

(** ** Below one day the integer part is a two-digit clock *)

Lemma zero_padded_2 (x : Z) :
  0 <= x < 100 -> PyStr.zero_padded 2 x = fixed_digits 2 x.
Proof.
  intros H. apply String.eqb_eq.
  apply (Z_below_forallb two_digits_is 100%N); [vm_compute; reflexivity | exact H].
Qed.

Lemma append_cons (c : ascii) (a b : string) :
  String c a ++ b = String c (a ++ b).
Proof. reflexivity. Qed.

Lemma append_assoc (a b c : string) : (a ++ b) ++ c = a ++ (b ++ c).
Proof.
  induction a as [|x a IH]; [reflexivity|].
  rewrite !append_cons. now rewrite IH.
Qed.

(** Padding to [w + k] a text that ends in [k] known characters. *)
Lemma rjust_append (fill : ascii) (w : nat) (s t : string) :
  PyStr.rjust fill (w + String.length t) (s ++ t) = PyStr.rjust fill w s ++ t.
Proof.
  unfold PyStr.rjust. rewrite length_append, append_assoc.
  replace (w + String.length t - (String.length s + String.length t))%nat
    with (w - String.length s)%nat by lia.
  reflexivity.
Qed.

Lemma clock_below_one_day (isec : Z) :
  0 <= isec < 86400 ->
  PyStr.rjust "0" 8
    (DateTime.str {| DateTime.days := 0; DateTime.seconds := isec;
                     DateTime.microseconds := 0 |}) = clock isec.
Proof.
  intros H. unfold DateTime.str, clock. cbn [DateTime.days DateTime.seconds
    DateTime.microseconds Z.eqb].
  assert (Hh : 0 <= isec / 60 / 60 < 100).
  { split; [apply Z.div_pos; [apply Z.div_pos|]; lia|].
    apply Z.div_lt_upper_bound; [lia|]. apply Z.div_lt_upper_bound; lia. }
  assert (Hm : 0 <= isec / 60 mod 60 < 100)
    by (pose proof (Z.mod_pos_bound (isec / 60) 60); lia).
  assert (Hs : 0 <= isec mod 60 < 100)
    by (pose proof (Z.mod_pos_bound isec 60); lia).
  rewrite (zero_padded_2 _ Hm), (zero_padded_2 _ Hs).
  rewrite Z.div_div by lia. change (60 * 60) with 3600 in *.
  rewrite Z.div_div in Hh by lia. change (60 * 60) with 3600 in Hh.
  rewrite <- (zero_padded_2 _ Hh). unfold PyStr.zero_padded.
  apply (rjust_append "0" 2 (PyStr.str_of_int (isec / 3600))).
Qed.

Lemma rendered_below_one_day (n : Z) (separator : string) (digits : nat) :
  0 <= n < 86400 * 10 ^ Z.of_nat digits ->
  rendered n separator digits =
    clock (n / 10 ^ Z.of_nat digits) ++ separator
    ++ fixed_digits digits (n mod 10 ^ Z.of_nat digits).
Proof.
  intros Hn. unfold rendered.
  assert (Hp : 0 < 10 ^ Z.of_nat digits) by (apply Z.pow_pos_nonneg; lia).
  assert (Hi : 0 <= n / 10 ^ Z.of_nat digits < 86400).
  { split; [apply Z.div_pos; lia | apply Z.div_lt_upper_bound; lia]. }
  rewrite (Z.div_small _ 86400 Hi), (Z.mod_small _ 86400 Hi).
  now rewrite clock_below_one_day.
Qed.

(** ** A product of finite floats is never NaN *)

Lemma shr_1_nonneg (mrs : shr_record) : 0 <= shr_m mrs -> 0 <= shr_m (shr_1 mrs).
Proof.
  destruct mrs as [m r s]. simpl.
  destruct m as [|p|p]; [intros _; simpl; lia | | intros H; lia].
  intros _. destruct p; simpl; lia.
Qed.

Lemma iter_pos_shr_1_nonneg (p : positive) (mrs : shr_record) :
  0 <= shr_m mrs -> 0 <= shr_m (SpecFloat.iter_pos shr_1 p mrs).
Proof.
  revert mrs. induction p as [p IH|p IH|]; intros mrs H; simpl.
  - apply IH, IH, shr_1_nonneg, H.
  - apply IH, IH, H.
  - apply shr_1_nonneg, H.
Qed.

Lemma shr_fexp_nonneg (m e : Z) (l : location) :
  0 <= m -> 0 <= shr_m (fst (shr_fexp PyFloat.prec PyFloat.emax m e l)).
Proof.
  intros H. unfold shr_fexp, shr.
  assert (H0 : 0 <= shr_m (shr_record_of_loc m l)).
  { destruct l as [|[]]; exact H. }
  destruct (fexp _ _ _ - e); simpl; try exact H0.
  apply iter_pos_shr_1_nonneg, H0.
Qed.

Lemma round_nearest_even_nonneg (m : Z) (l : location) :
  0 <= m -> 0 <= round_nearest_even m l.
Proof.
  intros H. unfold round_nearest_even.
  destruct l as [|[]]; try lia. destruct (Z.even m); lia.
Qed.

Lemma binary_round_aux_not_nan (sx : bool) (mx ex : Z) (lx : location) :
  0 <= mx ->
  binary_round_aux PyFloat.prec PyFloat.emax sx mx ex lx <> S754_nan.
Proof.
  intros H. unfold binary_round_aux.
  pose proof (shr_fexp_nonneg mx ex lx H) as H1.
  destruct (shr_fexp PyFloat.prec PyFloat.emax mx ex lx) as [mrs' e'].
  simpl in H1.
  pose proof (shr_fexp_nonneg _ e' loc_Exact
                (round_nearest_even_nonneg _ (loc_of_shr_record mrs') H1)) as H2.
  destruct (shr_fexp PyFloat.prec PyFloat.emax _ e' loc_Exact) as [mrs'' e''].
  simpl in H2.
  destruct (shr_m mrs'') as [|p|p]; [discriminate | | lia].
  destruct (e'' <=? _); discriminate.
Qed.

Lemma fmul_finite_not_nan (x y : PyFloat.float) :
  PyFloat.is_finite x = true -> PyFloat.is_finite y = true ->
  PyFloat.fmul x y <> S754_nan.
Proof.
  destruct x as [sx|sx| |sx mx ex], y as [sy|sy| |sy my ey];
    simpl; try discriminate; intros _ _.
  apply binary_round_aux_not_nan. lia.
Qed.

Lemma scale_preset_finite (digits : nat) :
  digits = 2%nat \/ digits = 3%nat ->
  exists m e, scale digits = S754_finite false m e.
Proof. intros [->| ->]; vm_compute; eauto. Qed.

(** A finite input gives a count or overflows; NaN is a [ValueError]; an
    infinity is an [OverflowError]. *)
Lemma rounded_count_finite (seconds : PyFloat.float) (digits : nat) :
  digits = 2%nat \/ digits = 3%nat ->
  PyFloat.is_finite seconds = true ->
  (exists n, rounded_count seconds digits = Ok n)
  \/ rounded_count seconds digits = Raise OverflowError.
Proof.
  intros Hd Hf. unfold rounded_count.
  destruct (scale_preset_finite digits Hd) as (m & e & Hs).
  pose proof (fmul_finite_not_nan seconds (scale digits) Hf) as Hnan.
  rewrite Hs in *. specialize (Hnan eq_refl).
  destruct (PyFloat.fmul seconds (S754_finite false m e)); simpl; eauto.
  congruence.
Qed.

Lemma rounded_count_nan (digits : nat) :
  rounded_count PyFloat.nan digits = Raise ValueError.
Proof. reflexivity. Qed.

Lemma rounded_count_infinity (s : bool) (digits : nat) :
  digits = 2%nat \/ digits = 3%nat ->
  rounded_count (S754_infinity s) digits = Raise OverflowError.
Proof.
  intros Hd. unfold rounded_count.
  destruct (scale_preset_finite digits Hd) as (m & e & ->). reflexivity.
Qed.

(** ** Claims about the timestamp formatter *)

(** C1: from one day on, the integer part is not [HH:MM:SS]: the text of the
    [timedelta] starts with a day count, so at 86400.0 seconds the SRT preset
    gives ["1 day, 0:00:00,000"] and the default preset
    ["1 day, 0:00:00.00"], where the claim asks for ["24:00:00,000"] and
    ["24:00:00.00"]; neither text reads back as a timestamp. *)
Theorem one_day_renders_a_day_count :
  format_to_srt_ts (PyFloat.literal 86400 0) = Ok "1 day, 0:00:00,000"
  /\ parse_timestamp 3 "1 day, 0:00:00,000" = None
  /\ format_td_default (PyFloat.literal 86400 0) = Ok "1 day, 0:00:00.00"
  /\ parse_timestamp 2 "1 day, 0:00:00.00" = None.
Proof. repeat split; vm_compute; reflexivity. Qed.

(** C2: the count [n = round(seconds * 10**digits)] is split into
    [n div 10**digits] whole seconds and [n mod 10**digits] fraction units,
    so a fraction that rounds up to [10**digits] carries into the seconds
    and the fractional field always has exactly [digits] digits:
    59.9996 gives ["00:01:00,000"] with the SRT preset, 59.999 gives
    ["00:01:00.00"] with the default one. *)
Theorem rounding_carries_into_next_second :
  format_to_srt_ts (PyFloat.literal 599996 4) = Ok "00:01:00,000"
  /\ format_td_default (PyFloat.literal 59999 3) = Ok "00:01:00.00"
  /\ forall (seconds : PyFloat.float) (separator : string) (digits : nat) (n : Z),
       digits = 2%nat \/ digits = 3%nat ->
       rounded_count seconds digits = Ok n ->
       Z.abs (n / 10 ^ Z.of_nat digits / 86400) <= 999999999 ->
       format_td seconds separator digits =
         Ok (PyStr.rjust "0" 8 (DateTime.str (timedelta_of_count n digits))
             ++ separator ++ fixed_digits digits (n mod 10 ^ Z.of_nat digits))
       /\ String.length (fixed_digits digits (n mod 10 ^ Z.of_nat digits)) = digits.
Proof.
  split; [vm_compute; reflexivity|]. split; [vm_compute; reflexivity|].
  intros seconds separator digits n Hd Hn Hrange.
  split; [|apply fixed_digits_length].
  rewrite (format_td_of_count seconds separator digits n Hd Hn).
  destruct (Z.gtb_spec (Z.abs (n / 10 ^ Z.of_nat digits / 86400)) 999999999);
    [lia | reflexivity].
Qed.

Lemma rounding_carries_into_next_second_witness :
  (3 = 2 \/ 3 = 3)%nat
  /\ rounded_count (PyFloat.literal 599996 4) 3 = Ok 60000
  /\ Z.abs (60000 / 10 ^ Z.of_nat 3 / 86400) <= 999999999
  /\ format_td (PyFloat.literal 599996 4) "," 3 =
       Ok (PyStr.rjust "0" 8 (DateTime.str (timedelta_of_count 60000 3))
           ++ "," ++ fixed_digits 3 (60000 mod 10 ^ Z.of_nat 3)).
Proof.
  assert (Hd : (3 = 2 \/ 3 = 3)%nat) by (right; reflexivity).
  assert (Hn : rounded_count (PyFloat.literal 599996 4) 3 = Ok 60000)
    by (vm_compute; reflexivity).
  assert (Hr : Z.abs (60000 / 10 ^ Z.of_nat 3 / 86400) <= 999999999)
    by (vm_compute; discriminate).
  split; [exact Hd|]. split; [exact Hn|]. split; [exact Hr|].
  exact (proj1 (proj2 (proj2 rounding_carries_into_next_second)
                  (PyFloat.literal 599996 4) "," 3%nat 60000 Hd Hn Hr)).
Defined.

(** C6, as the code has it: NaN raises [ValueError] and an infinity raises
    [OverflowError]. A finite input, whatever its sign, raises nothing but
    [OverflowError]: it raises when the product [seconds * 10**digits] is
    not finite or when the day count of its rounded value does not fit
    [timedelta] (more than 999999999 days in magnitude), and returns a text
    otherwise. *)
Theorem format_td_error_conditions
    (seconds : PyFloat.float) (separator : string) (digits : nat) :
  digits = 2%nat \/ digits = 3%nat ->
  match seconds with
  | S754_nan => format_td seconds separator digits = Raise ValueError
  | S754_infinity _ => format_td seconds separator digits = Raise OverflowError
  | _ =>
      (forall e, format_td seconds separator digits = Raise e -> e = OverflowError)
      /\ (forall e, rounded_count seconds digits = Raise e ->
            format_td seconds separator digits = Raise OverflowError)
      /\ (forall n, rounded_count seconds digits = Ok n ->
            Z.abs (n / 10 ^ Z.of_nat digits / 86400) <= 999999999 ->
            exists out, format_td seconds separator digits = Ok out)
      /\ (forall n, rounded_count seconds digits = Ok n ->
            999999999 < Z.abs (n / 10 ^ Z.of_nat digits / 86400) ->
            format_td seconds separator digits = Raise OverflowError)
  end.
Proof.
  intros Hd.
  assert (Hfin : PyFloat.is_finite seconds = true ->
    (forall e, format_td seconds separator digits = Raise e -> e = OverflowError)
    /\ (forall e, rounded_count seconds digits = Raise e ->
          format_td seconds separator digits = Raise OverflowError)
    /\ (forall n, rounded_count seconds digits = Ok n ->
          Z.abs (n / 10 ^ Z.of_nat digits / 86400) <= 999999999 ->
          exists out, format_td seconds separator digits = Ok out)
    /\ (forall n, rounded_count seconds digits = Ok n ->
          999999999 < Z.abs (n / 10 ^ Z.of_nat digits / 86400) ->
          format_td seconds separator digits = Raise OverflowError)).
  { intros Hf. split; [|split; [|split]].
    - intros e He.
      destruct (rounded_count_finite seconds digits Hd Hf) as [[n Hn]|Hn].
      + rewrite (format_td_of_count _ _ _ _ Hd Hn) in He.
        destruct (_ >? _); congruence.
      + rewrite (format_td_of_error _ _ _ _ Hd Hn) in He. congruence.
    - intros e He.
      destruct (rounded_count_finite seconds digits Hd Hf) as [[n Hn]|Hn].
      + congruence.
      + now apply format_td_of_error.
    - intros n Hn Hrange.
      rewrite (format_td_of_count _ _ _ _ Hd Hn).
      destruct (Z.gtb_spec (Z.abs (n / 10 ^ Z.of_nat digits / 86400)) 999999999);
        [lia | eauto].
    - intros n Hn Hrange.
      rewrite (format_td_of_count _ _ _ _ Hd Hn).
      destruct (Z.gtb_spec (Z.abs (n / 10 ^ Z.of_nat digits / 86400)) 999999999);
        [reflexivity | lia]. }
  destruct seconds as [s|s| |s m e].
  - apply Hfin. reflexivity.
  - apply format_td_of_error; [exact Hd | apply rounded_count_infinity, Hd].
  - apply format_td_of_error; [exact Hd | apply rounded_count_nan].
  - apply Hfin. reflexivity.
Qed.

Lemma format_td_error_conditions_witness :
  (3 = 2 \/ 3 = 3)%nat
  /\ PyFloat.literal (10 ^ 308) 0 = S754_finite false 5010420900022432 971
  /\ PyFloat.is_finite (PyFloat.literal (10 ^ 308) 0) = true
  /\ rounded_count (PyFloat.literal (10 ^ 308) 0) 3 = Raise OverflowError
  /\ format_td (PyFloat.literal (10 ^ 308) 0) "," 3 = Raise OverflowError
  /\ rounded_count (PyFloat.literal (-1) 0) 3 = Ok (-1000)
  /\ Z.abs (-1000 / 10 ^ Z.of_nat 3 / 86400) <= 999999999
  /\ exists out, format_td (PyFloat.literal (-1) 0) "," 3 = Ok out.
Proof.
  assert (Hd : (3 = 2 \/ 3 = 3)%nat) by (right; reflexivity).
  assert (Hlit : PyFloat.literal (10 ^ 308) 0
                 = S754_finite false 5010420900022432 971)
    by (vm_compute; reflexivity).
  assert (Ho : rounded_count (S754_finite false 5010420900022432 971) 3
               = Raise OverflowError)
    by (vm_compute; reflexivity).
  assert (Hn : rounded_count (S754_finite true 4503599627370496 (-52)) 3
               = Ok (-1000))
    by (vm_compute; reflexivity).
  assert (Hr : Z.abs (-1000 / 10 ^ Z.of_nat 3 / 86400) <= 999999999)
    by (vm_compute; discriminate).
  split; [exact Hd|]. split; [exact Hlit|]. rewrite Hlit.
  split; [reflexivity|]. split; [exact Ho|].
  split.
  { exact (proj1 (proj2 (format_td_error_conditions
                           (S754_finite false 5010420900022432 971)
                           "," 3%nat Hd))
             OverflowError Ho). }
  change (PyFloat.literal (-1) 0)
    with (S754_finite true 4503599627370496 (-52)).
  split; [exact Hn|]. split; [exact Hr|].
  exact (proj1 (proj2 (proj2 (format_td_error_conditions
                                (S754_finite true 4503599627370496 (-52))
                                "," 3%nat Hd)))
           (-1000) Hn Hr).
Defined.

(** C6, the claim as stated fails: the negative input -1.0 raises nothing
    and a text is returned, and the non-negative finite input 1e300 raises
    [OverflowError]. *)
Lemma negative_seconds_are_formatted :
  PyFloat.is_negative (PyFloat.literal (-1) 0) = true
  /\ format_td_default (PyFloat.literal (-1) 0) = Ok "-1 day, 23:59:59.00"
  /\ format_to_srt_ts (PyFloat.literal (-1) 0) = Ok "-1 day, 23:59:59,000"
  /\ PyFloat.is_finite (PyFloat.literal (10 ^ 300) 0) = true
  /\ PyFloat.is_negative (PyFloat.literal (10 ^ 300) 0) = false
  /\ format_td_default (PyFloat.literal (10 ^ 300) 0) = Raise OverflowError.
Proof. repeat split; vm_compute; reflexivity. Qed.

(** ** The draining loop and the engine call *)

Lemma with_stdout_same (w : world) : with_stdout w (stdout w) = w.
Proof. destruct w; reflexivity. Qed.

Lemma with_stdout_twice (w : world) (o1 o2 : list string) :
  with_stdout (with_stdout w o1) o2 = with_stdout w o2.
Proof. reflexivity. Qed.

Lemma print_failure_none (w : world) (lines : list string) :
  prints_all w lines = true -> print_failure (unprintable w) lines = None.
Proof.
  induction lines as [|l rest IH]; intros H; [reflexivity|].
  simpl in H. apply andb_prop in H as [Hl Hrest]. unfold can_print in Hl.
  simpl. destruct (unprintable w !! l); [discriminate|].
  now rewrite (IH Hrest).
Qed.

Lemma print_failure_some (w : world) (lines : list string) :
  prints_all w lines = false ->
  exists done e, print_failure (unprintable w) lines = Some (done, e).
Proof.
  induction lines as [|l rest IH]; intros H; [discriminate|].
  simpl in H. unfold can_print in H at 1. simpl.
  destruct (unprintable w !! l) as [e|]; [eauto|].
  simpl in H. destruct (IH H) as (done & e & ->). eauto.
Qed.

Lemma print_failure_split (w : world) (done rest : list string)
    (line : string) (e : exn) :
  prints_all w done = true -> unprintable w !! line = Some e ->
  print_failure (unprintable w) (done ++ line :: rest)%list = Some (done, e).
Proof.
  intros Hd Hl. induction done as [|l done IH]; simpl.
  - now rewrite Hl.
  - simpl in Hd. apply andb_prop in Hd as [Hc Hd]. unfold can_print in Hc.
    destruct (unprintable w !! l); [discriminate|].
    now rewrite (IH Hd).
Qed.

Lemma print_failure_with_stdout (w : world) (out lines : list string) :
  print_failure (unprintable (with_stdout w out)) lines
    = print_failure (unprintable w) lines.
Proof. reflexivity. Qed.

Lemma drain_spec (verbose : bool) (g : generator) (acc : list segment_tuple)
    (w : world) :
  drain verbose g acc w =
    match print_failure (unprintable w) (progress verbose (yielded g)) with
    | Some (done, e) => (Raise e, with_stdout w (stdout w ++ done)%list)
    | None =>
        (match failure g with
         | Some e => Raise e
         | None => Ok (acc ++ map as_tuple (yielded g))%list
         end,
         with_stdout w (stdout w ++ progress verbose (yielded g))%list)
    end.
Proof.
  revert acc w. induction g as [|s rest IH|e]; intros acc w.
  - destruct verbose; simpl; unfold mret, io_ret;
      rewrite !app_nil_r, with_stdout_same; reflexivity.
  - destruct verbose.
    + simpl. unfold mbind, io_bind at 1. unfold print.
      destruct (unprintable w !! progress_line s) as [e|].
      * now rewrite app_nil_r, with_stdout_same.
      * rewrite IH. simpl.
        change (progress true (yielded rest)) with (map progress_line (yielded rest)).
        destruct (print_failure (unprintable w) (map progress_line (yielded rest)))
          as [[done e]|]; simpl; rewrite <- !app_assoc; reflexivity.
    + simpl. unfold mbind, io_bind at 1, mret at 1, io_ret. rewrite IH. simpl.
      rewrite <- !app_assoc. reflexivity.
  - destruct verbose; simpl; unfold lift;
      rewrite ?app_nil_r, with_stdout_same; reflexivity.
Qed.

Lemma printed_ok (verbose : bool) (g : generator) (info : TranscriptionInfo) :
  printed verbose (Ok (g, info)) = run_output verbose g info.
Proof. destruct verbose; reflexivity. Qed.

Lemma collect_spec (engine : loader) (verbose : bool)
    (model_size device compute_type filepath : string) (w : world) :
  let call := engine_call engine model_size device compute_type filepath in
  collect engine verbose model_size device compute_type filepath w =
    match print_failure (unprintable w) (printed verbose call) with
    | Some (done, e) => (Raise e, with_stdout w (stdout w ++ done)%list)
    | None =>
        (collected call, with_stdout w (stdout w ++ printed verbose call)%list)
    end.
Proof.
  cbv zeta. unfold collect, engine_call, collected, printed.
  unfold mbind at 1, io_bind, lift.
  destruct (engine model_size device compute_type) as [model|e]; simpl.
  2: { rewrite app_nil_r, with_stdout_same. reflexivity. }
  destruct (wm_transcribe model filepath 5) as [[g info]|e]; simpl.
  2: { rewrite app_nil_r, with_stdout_same. reflexivity. }
  destruct verbose; unfold mbind, mret, io_bind, io_ret, print; simpl.
  - destruct (unprintable w !! language_line info) as [e|].
    + now rewrite app_nil_r, with_stdout_same.
    + rewrite drain_spec. simpl.
      destruct (print_failure (unprintable w) (map progress_line (yielded g)))
        as [[done e]|]; simpl; rewrite <- !app_assoc; reflexivity.
  - rewrite drain_spec. reflexivity.
Qed.

(** ** The writers *)

Lemma append_empty_r (s : string) : s ++ "" = s.
Proof.
  induction s as [|c s IH]; [reflexivity|].
  rewrite append_cons. now rewrite IH.
Qed.

Lemma with_files_same (w : world) : with_files w (files w) = w.
Proof. destruct w; reflexivity. Qed.

Lemma writelines_spec (h : string) (lines : list string) (w : world) :
  writelines h lines w =
    (Ok tt,
     with_files w (alter (fun content => content ++ PyStr.join lines) h (files w))).
Proof.
  revert w. induction lines as [|l rest IH]; intros w; simpl.
  - unfold mret, io_ret. f_equal.
    rewrite alter_id; [now rewrite with_files_same|].
    intros c _. apply append_empty_r.
  - unfold mbind, io_bind, write. rewrite IH. f_equal.
    unfold with_files; simpl. f_equal.
    rewrite alter_alter_eq. apply alter_ext.
    intros c _. simpl. apply append_assoc.
Qed.

Lemma open_w_ok (path : string) (w : world) :
  resolve (cwd w) path ∉ denied w ->
  open_w path w = (Ok (resolve (cwd w) path),
                   after_open w (resolve (cwd w) path) "").
Proof. intros H. unfold open_w. rewrite decide_False by exact H. reflexivity. Qed.

Lemma open_w_denied (path : string) (w : world) :
  resolve (cwd w) path ∈ denied w ->
  open_w path w =
    (Raise OSError, with_opened w (opened w ++ [resolve (cwd w) path])%list).
Proof. intros H. unfold open_w. rewrite decide_True by exact H. reflexivity. Qed.

Lemma writelines_after_open (w : world) (p : string) (lines : list string) :
  writelines p lines (after_open w p "") =
    (Ok tt, after_open w p (PyStr.join lines)).
Proof.
  rewrite writelines_spec. f_equal. unfold after_open, with_files; simpl.
  f_equal. now rewrite alter_insert_eq.
Qed.

Lemma write_txt_ok (filename : string) (segs : list segment_tuple) (w : world) :
  resolve (cwd w) (filename ++ ".txt") ∉ denied w ->
  write_txt filename segs w =
    (Ok tt, after_open w (resolve (cwd w) (filename ++ ".txt"))
              (PyStr.join (txt_lines segs))).
Proof.
  intros H. unfold write_txt, mbind, io_bind.
  rewrite (open_w_ok _ _ H). apply writelines_after_open.
Qed.

Lemma write_txt_denied (filename : string) (segs : list segment_tuple) (w : world) :
  resolve (cwd w) (filename ++ ".txt") ∈ denied w ->
  write_txt filename segs w =
    (Raise OSError,
     with_opened w (opened w ++ [resolve (cwd w) (filename ++ ".txt")])%list).
Proof.
  intros H. unfold write_txt, mbind, io_bind.
  now rewrite (open_w_denied _ _ H).
Qed.

Lemma write_srt_ok (filename : string) (segs : list segment_tuple)
    (groups : list string) (w : world) :
  resolve (cwd w) (filename ++ ".srt") ∉ denied w ->
  srt_groups 1 segs = Ok groups ->
  write_srt filename segs w =
    (Ok tt, after_open w (resolve (cwd w) (filename ++ ".srt"))
              (PyStr.join groups)).
Proof.
  intros H Hg. unfold write_srt, mbind, io_bind, lift.
  rewrite (open_w_ok _ _ H), Hg. apply writelines_after_open.
Qed.

Lemma write_srt_format_error (filename : string) (segs : list segment_tuple)
    (e : exn) (w : world) :
  resolve (cwd w) (filename ++ ".srt") ∉ denied w ->
  srt_groups 1 segs = Raise e ->
  write_srt filename segs w =
    (Raise e, after_open w (resolve (cwd w) (filename ++ ".srt")) "").
Proof.
  intros H Hg. unfold write_srt, mbind, io_bind, lift.
  now rewrite (open_w_ok _ _ H), Hg.
Qed.

Lemma write_srt_denied (filename : string) (segs : list segment_tuple) (w : world) :
  resolve (cwd w) (filename ++ ".srt") ∈ denied w ->
  write_srt filename segs w =
    (Raise OSError,
     with_opened w (opened w ++ [resolve (cwd w) (filename ++ ".srt")])%list).
Proof.
  intros H. unfold write_srt, mbind, io_bind.
  now rewrite (open_w_denied _ _ H).
Qed.

(** ** The standard output does not influence the writers *)

Lemma blind_ret {A : Type} (a : A) : stdout_blind (mret a).
Proof. intros w out. reflexivity. Qed.

Lemma blind_lift {A : Type} (r : result A) : stdout_blind (lift r).
Proof. intros w out. reflexivity. Qed.

Lemma blind_bind {A B : Type} (m : io A) (k : A -> io B) :
  stdout_blind m -> (forall a, stdout_blind (k a)) -> stdout_blind (m ≫= k).
Proof.
  intros Hm Hk w out. unfold mbind, io_bind. rewrite Hm.
  destruct (m w) as [[a|e] w']; simpl; [apply Hk | reflexivity].
Qed.

Lemma blind_open_w (path : string) : stdout_blind (open_w path).
Proof.
  intros w out. unfold open_w. simpl.
  destruct (decide (resolve (cwd w) path ∈ denied w)); reflexivity.
Qed.

Lemma blind_write (h data : string) : stdout_blind (write h data).
Proof. intros w out. reflexivity. Qed.

Lemma blind_writelines (h : string) (lines : list string) :
  stdout_blind (writelines h lines).
Proof.
  induction lines as [|l rest IH]; simpl.
  - apply blind_ret.
  - apply blind_bind; [apply blind_write | intros _; exact IH].
Qed.

Lemma blind_write_outputs (filepath : string) (output_txt output_srt : bool)
    (segs : list segment_tuple) :
  stdout_blind (write_outputs filepath output_txt output_srt segs).
Proof.
  unfold write_outputs, write_txt, write_srt.
  destruct output_txt, output_srt; simpl;
    repeat first
      [ apply blind_ret | apply blind_lift | apply blind_open_w
      | apply blind_writelines | apply blind_bind | intros ? ].
Qed.

(** [transcribe] is the collection followed by the writers, which run in
    the initial world; the printed lines are appended to its output. *)
Lemma transcribe_spec (engine : loader) (verbose : bool)
    (model_size device compute_type filepath : string)
    (output_txt output_srt : bool) (w : world) :
  let call := engine_call engine model_size device compute_type filepath in
  let out := (stdout w ++ printed verbose call)%list in
  transcribe engine verbose model_size device compute_type filepath
      output_txt output_srt w =
    match print_failure (unprintable w) (printed verbose call) with
    | Some (done, e) => (Raise e, with_stdout w (stdout w ++ done)%list)
    | None =>
        match collected call with
        | Ok segs =>
            let r := write_outputs filepath output_txt output_srt segs w in
            (fst r, with_stdout (snd r) out)
        | Raise e => (Raise e, with_stdout w out)
        end
    end.
Proof.
  cbv zeta. unfold transcribe, mbind at 1, io_bind.
  rewrite collect_spec. cbv zeta.
  destruct (print_failure _ _) as [[done e]|]; [reflexivity|].
  destruct (collected _) as [segs|e]; [|reflexivity].
  apply blind_write_outputs.
Qed.

(** A run in which every line is printed: the collection, then the
    writers, which run in the initial world. *)
Lemma transcribe_printed (engine : loader) (verbose : bool)
    (model_size device compute_type filepath : string)
    (output_txt output_srt : bool) (w : world) :
  let call := engine_call engine model_size device compute_type filepath in
  let out := (stdout w ++ printed verbose call)%list in
  prints_all w (printed verbose call) = true ->
  transcribe engine verbose model_size device compute_type filepath
      output_txt output_srt w =
    match collected call with
    | Ok segs =>
        let r := write_outputs filepath output_txt output_srt segs w in
        (fst r, with_stdout (snd r) out)
    | Raise e => (Raise e, with_stdout w out)
    end.
Proof.
  cbv zeta. intros H. rewrite transcribe_spec. cbv zeta.
  now rewrite (print_failure_none _ _ H).
Qed.

(** A run whose print raises ends there. *)
Lemma transcribe_unprinted (engine : loader) (verbose : bool)
    (model_size device compute_type filepath : string)
    (output_txt output_srt : bool) (w : world) (done : list string) (e : exn) :
  print_failure (unprintable w)
    (printed verbose
       (engine_call engine model_size device compute_type filepath))
    = Some (done, e) ->
  transcribe engine verbose model_size device compute_type filepath
      output_txt output_srt w
    = (Raise e, with_stdout w (stdout w ++ done)%list).
Proof. intros H. rewrite transcribe_spec. cbv zeta. now rewrite H. Qed.


(** The run after an engine call that returned [(g, info)], when every
    line is printed. *)
Lemma transcribe_of_call (engine : loader) (model : WhisperModel)
    (g : generator) (info : TranscriptionInfo) (verbose : bool)
    (model_size device compute_type filepath : string)
    (output_txt output_srt : bool) (w : world) :
  engine model_size device compute_type = Ok model ->
  wm_transcribe model filepath 5 = Ok (g, info) ->
  prints_all w (run_output verbose g info) = true ->
  transcribe engine verbose model_size device compute_type filepath
      output_txt output_srt w =
    let out := (stdout w ++ run_output verbose g info)%list in
    match failure g with
    | Some e => (Raise e, with_stdout w out)
    | None =>
        let r := write_outputs filepath output_txt output_srt
                   (map as_tuple (yielded g)) w in
        (fst r, with_stdout (snd r) out)
    end.
Proof.
  intros He Ht Hp.
  assert (Hc : engine_call engine model_size device compute_type filepath
               = Ok (g, info)) by (unfold engine_call; rewrite He; exact Ht).
  rewrite transcribe_printed; cbv zeta; rewrite Hc, printed_ok; [|exact Hp].
  unfold collected. simpl. destruct (failure g); reflexivity.
Qed.

(** ** Claims about the run as a whole *)

Lemma failure_raising_after (l : list Segment) (e : exn) :
  failure (raising_after l e) = Some e.
Proof. induction l as [|s l IH]; simpl; [reflexivity | exact IH]. Qed.

Lemma failure_segments_of (l : list Segment) : failure (segments_of l) = None.
Proof. induction l as [|s l IH]; simpl; [reflexivity | exact IH]. Qed.

Lemma yielded_segments_of (l : list Segment) : yielded (segments_of l) = l.
Proof. induction l as [|s l IH]; simpl; [reflexivity | now rewrite IH]. Qed.

Lemma engine_call_ok (engine : loader) (model : WhisperModel)
    (model_size device compute_type filepath : string)
    (r : result (generator * TranscriptionInfo)) :
  engine model_size device compute_type = Ok model ->
  wm_transcribe model filepath 5 = r ->
  engine_call engine model_size device compute_type filepath = r.
Proof. intros He Hr. unfold engine_call. rewrite He. exact Hr. Qed.

(** C5: when the generator raises after yielding any number of segments,
    [transcribe] raises, opens no file and leaves the files as they were;
    the exception is the one of the generator when every progress line of
    a verbose run could be printed (always so for a quiet run). *)
Theorem engine_failure_leaves_no_artifact
    (engine : loader) (model : WhisperModel) (info : TranscriptionInfo)
    (l : list Segment) (e : exn) (verbose : bool)
    (model_size device compute_type filepath : string)
    (output_txt output_srt : bool) (w : world) :
  engine model_size device compute_type = Ok model ->
  wm_transcribe model filepath 5 = Ok (raising_after l e, info) ->
  let r := transcribe engine verbose model_size device compute_type filepath
             output_txt output_srt w in
  (exists e', fst r = Raise e')
  /\ files (snd r) = files w /\ opened (snd r) = opened w
  /\ (prints_all w (run_output verbose (raising_after l e) info) = true ->
        fst r = Raise e).
Proof.
  intros He Ht. cbv zeta. rewrite transcribe_spec. cbv zeta.
  rewrite (engine_call_ok _ _ _ _ _ _ _ He Ht), printed_ok.
  unfold collected. simpl. rewrite failure_raising_after.
  destruct (print_failure _ _) as [[done e']|] eqn:Hp; simpl.
  - repeat split; eauto. intros H.
    rewrite (print_failure_none _ _ H) in Hp. discriminate.
  - repeat split; eauto.
Qed.

Lemma engine_failure_leaves_no_artifact_witness :
  let engine := engine_yielding (raising_after three_segments EngineError) english in
  let r := transcribe engine true "small" "auto" "default" "/data/talk.mp3"
             true true (empty_world "/home/u") in
  engine "small" "auto" "default" = Ok failing_model
  /\ wm_transcribe failing_model "/data/talk.mp3" 5
       = Ok (raising_after three_segments EngineError, english)
  /\ prints_all (empty_world "/home/u")
       (run_output true (raising_after three_segments EngineError) english)
     = true
  /\ fst r = Raise EngineError
  /\ files (snd r) = files (empty_world "/home/u")
  /\ opened (snd r) = opened (empty_world "/home/u").
Proof.
  cbv zeta.
  assert (Hp : prints_all (empty_world "/home/u")
                 (run_output true (raising_after three_segments EngineError)
                    english) = true) by (vm_compute; reflexivity).
  destruct (engine_failure_leaves_no_artifact
              (engine_yielding (raising_after three_segments EngineError) english)
              failing_model english three_segments EngineError true
              "small" "auto" "default" "/data/talk.mp3" true true
              (empty_world "/home/u") eq_refl eq_refl) as (_ & Hf & Ho & Hr).
  split; [reflexivity|]. split; [reflexivity|]. split; [exact Hp|].
  split; [exact (Hr Hp)|]. split; [exact Hf | exact Ho].
Defined.




(** C9: with neither [output_txt] nor [output_srt], a run opens no file and
    leaves the files as they were, whatever the engine produced. *)
Theorem no_flag_no_file
    (engine : loader) (verbose : bool)
    (model_size device compute_type filepath : string) (w : world) :
  let r := transcribe engine verbose model_size device compute_type filepath
             false false w in
  files (snd r) = files w /\ opened (snd r) = opened w.
Proof.
  cbv zeta. rewrite transcribe_spec. cbv zeta.
  destruct (print_failure _ _) as [[done e]|]; [simpl; auto|].
  destruct (collected _) as [segs|e]; simpl; auto.
Qed.

(** ** Paths: the stem has no directory part *)

Lemma split_nonempty (sep : ascii) (s : string) : PathLib.split sep s <> [].
Proof.
  destruct s as [|c s]; simpl; [discriminate|].
  destruct (Ascii.eqb c sep); [discriminate|].
  destruct (PathLib.split sep s); discriminate.
Qed.

Lemma split_parts_have_no_sep (sep : ascii) (s x : string) :
  In x (PathLib.split sep s) -> contains sep x = false.
Proof.
  revert x. induction s as [|c s IH]; intros x Hx; simpl in Hx.
  - destruct Hx as [<-|[]]. reflexivity.
  - destruct (Ascii.eqb c sep) eqn:Hc.
    + destruct Hx as [<-|Hx]; [reflexivity | now apply IH].
    + destruct (PathLib.split sep s) as [|h t].
      * destruct Hx as [<-|[]]. simpl. now rewrite Hc.
      * destruct Hx as [<-|Hx].
        -- simpl. rewrite Hc. apply IH. now left.
        -- apply IH. now right.
Qed.

Lemma name_has_no_slash (path : string) :
  contains "/" (PathLib.name path) = false.
Proof.
  unfold PathLib.name, PathLib.tail.
  set (l := filter _ _).
  assert (Hl : forall x, In x l -> contains "/" x = false).
  { intros x Hx. apply list_elem_of_In, list_elem_of_filter in Hx as [_ Hx].
    apply (split_parts_have_no_sep "/" path). now apply list_elem_of_In. }
  clearbody l. induction l as [|a l IH]; [reflexivity|].
  destruct l as [|b l]; [apply Hl; now left|].
  change (List.last (a :: b :: l) "") with (List.last (b :: l) "").
  apply IH. intros x Hx. apply Hl. now right.
Qed.

Lemma contains_substring (c : ascii) (s : string) (n m : nat) :
  contains c s = false -> contains c (substring n m s) = false.
Proof.
  revert n m. induction s as [|a s IH]; intros n m H.
  - destruct n, m; reflexivity.
  - simpl in H. apply orb_false_elim in H as [Ha Hs].
    destruct n as [|n]; simpl.
    + destruct m as [|m]; [reflexivity|]. simpl. rewrite Ha. now apply IH.
    + now apply IH.
Qed.

Lemma stem_has_no_slash (path : string) :
  contains "/" (PathLib.stem path) = false.
Proof.
  unfold PathLib.stem. pose proof (name_has_no_slash path) as H.
  destruct (_ && _); [now apply contains_substring | exact H].
Qed.

(** A name without a slash, with a suffix appended, is resolved inside the
    working directory. *)
Lemma resolve_in_cwd (dir s : string) (c : ascii) (ext : string) :
  contains "/" s = false -> c <> "/"%char ->
  resolve dir (s ++ String c ext) = dir ++ "/" ++ s ++ String c ext.
Proof.
  intros Hs Hc. unfold resolve.
  destruct s as [|a s].
  - change ("" ++ String c ext) with (String c ext).
    destruct c as [[] [] [] [] [] [] [] []]; try reflexivity. contradiction.
  - simpl in Hs. apply orb_false_elim in Hs as [Ha _].
    rewrite append_cons.
    destruct a as [[] [] [] [] [] [] [] []]; try reflexivity. discriminate.
Qed.

Lemma txt_path_in_cwd (w : world) (filepath : string) :
  txt_path w filepath = cwd w ++ "/" ++ PathLib.stem filepath ++ ".txt".
Proof.
  apply resolve_in_cwd; [apply stem_has_no_slash | discriminate].
Qed.

Lemma srt_path_in_cwd (w : world) (filepath : string) :
  srt_path w filepath = cwd w ++ "/" ++ PathLib.stem filepath ++ ".srt".
Proof.
  apply resolve_in_cwd; [apply stem_has_no_slash | discriminate].
Qed.

Lemma append_inj_l (a b c : string) : a ++ b = a ++ c -> b = c.
Proof.
  induction a as [|x a IH]; [trivial|].
  rewrite !append_cons. intros H. injection H as H. now apply IH.
Qed.

Lemma txt_path_is_not_srt_path (w : world) (filepath : string) :
  txt_path w filepath <> srt_path w filepath.
Proof.
  rewrite txt_path_in_cwd, srt_path_in_cwd. intros H.
  do 3 apply append_inj_l in H. discriminate.
Qed.

Lemma write_outputs_unfold (filepath : string) (output_txt output_srt : bool)
    (segs : list segment_tuple) (w : world) :
  write_outputs filepath output_txt output_srt segs w =
    match (if output_txt then write_txt (PathLib.stem filepath) segs w
           else (Ok tt, w)) with
    | (Ok _, w1) =>
        if output_srt then write_srt (PathLib.stem filepath) segs w1
        else (Ok tt, w1)
    | (Raise e, w1) => (Raise e, w1)
    end.
Proof. destruct output_txt, output_srt; reflexivity. Qed.

(** ** The SRT document *)

Lemma srt_groups_blocks (l : list Segment) (counter : Z) :
  forallb timestamps_ok l = true ->
  exists blocks,
    srt_groups counter (map as_tuple l) = Ok blocks
    /\ length blocks = length l
    /\ forall (k : nat) (s : Segment), l !! k = Some s ->
         exists a b,
           format_to_srt_ts (seg_start s) = Ok a
           /\ format_to_srt_ts (seg_end s) = Ok b
           /\ blocks !! k
              = Some (srt_block (counter + Z.of_nat k) a b (seg_text s)).
Proof.
  revert counter. induction l as [|s l IH]; intros counter Hok.
  - exists []. repeat split. intros k s Hk. rewrite lookup_nil in Hk. discriminate.
  - simpl in Hok. apply andb_prop in Hok as [Hs Hl].
    destruct (IH (counter + 1) Hl) as (blocks & Hblocks & Hlen & Hnth).
    unfold timestamps_ok in Hs.
    destruct (format_to_srt_ts (seg_start s)) as [a|] eqn:Ha; [|discriminate].
    destruct (format_to_srt_ts (seg_end s)) as [b|] eqn:Hb; [|discriminate].
    exists (srt_block counter a b (seg_text s) :: blocks).
    split; [|split].
    + simpl. unfold srt_group. simpl. rewrite Ha, Hb. simpl.
      rewrite Hblocks. reflexivity.
    + simpl. now rewrite Hlen.
    + intros [|k] s' Hk; simpl in Hk.
      * injection Hk as <-. exists a, b. rewrite Z.add_0_r. auto.
      * destruct (Hnth k s' Hk) as (a' & b' & Ha' & Hb' & Hk').
        exists a', b'. repeat split; try assumption.
        simpl. rewrite Hk'. do 2 f_equal. lia.
Qed.

(** ** The plain-text document *)

Lemma txt_lines_of_segments (l : list Segment) :
  txt_lines (map as_tuple l) = map seg_text l.
Proof. unfold txt_lines. rewrite map_map. reflexivity. Qed.

Lemma write_srt_keeps_other_files (filename : string)
    (segs : list segment_tuple) (w : world) (q : string) :
  q <> resolve (cwd w) (filename ++ ".srt") ->
  files (snd (write_srt filename segs w)) !! q = files w !! q.
Proof.
  intros Hq.
  destruct (decide (resolve (cwd w) (filename ++ ".srt") ∈ denied w)) as [Hd|Hd].
  - rewrite (write_srt_denied _ _ _ Hd). reflexivity.
  - destruct (srt_groups 1 segs) as [groups|e] eqn:Hg.
    + rewrite (write_srt_ok _ _ _ _ Hd Hg). simpl.
      apply lookup_insert_ne. congruence.
    + rewrite (write_srt_format_error _ _ _ _ Hd Hg). simpl.
      apply lookup_insert_ne. congruence.
Qed.

(** C4: with [output_txt], a run over the segments [l] (quiet, or verbose
    with every line printed) leaves in the [.txt]
    file the texts of the segments joined as they are, in order, with
    nothing between them, whether or not the [.srt] file is written too;
    the text ["  hello world  "] goes unchanged into the [.txt] file and
    stripped into its SRT block. *)
Theorem txt_document_is_verbatim :
  (forall (engine : loader) (model : WhisperModel) (info : TranscriptionInfo)
          (l : list Segment) (verbose : bool)
          (model_size device compute_type filepath : string)
          (output_srt : bool) (w : world),
      engine model_size device compute_type = Ok model ->
      wm_transcribe model filepath 5 = Ok (segments_of l, info) ->
      prints_all w (run_output verbose (segments_of l) info) = true ->
      txt_path w filepath ∉ denied w ->
      let r := transcribe engine verbose model_size device compute_type
                 filepath true output_srt w in
      files (snd r) !! txt_path w filepath
        = Some (PyStr.join (map seg_text l)))
  /\ (let r := transcribe (engine_yielding (segments_of spaced_segment) english)
                 false "small" "auto" "default" "talk.mp3" true true
                 (empty_world "/home/u") in
      fst r = Ok tt
      /\ files (snd r) !! "/home/u/talk.txt" = Some "  hello world  "
      /\ files (snd r) !! "/home/u/talk.srt"
         = Some "1
00:00:00,000 --> 00:00:01,000
hello world

").
Proof.
  split.
  - intros engine model info l verbose model_size device compute_type filepath
      output_srt w He Ht Hp Htxt. cbv zeta.
    rewrite (transcribe_of_call _ _ _ _ _ _ _ _ _ _ _ _ He Ht Hp). cbv zeta.
    rewrite failure_segments_of, yielded_segments_of.
    rewrite write_outputs_unfold.
    unfold txt_path in *. rewrite (write_txt_ok _ _ _ Htxt).
    rewrite txt_lines_of_segments.
    destruct output_srt; simpl.
    + rewrite write_srt_keeps_other_files; [apply lookup_insert_eq|].
      apply (txt_path_is_not_srt_path w filepath).
    + apply lookup_insert_eq.
  - vm_compute. auto.
Qed.

Lemma txt_document_is_verbatim_witness :
  let engine := engine_yielding (segments_of hello_world) english in
  let w := empty_world "/home/u" in
  let r := transcribe engine false "small" "auto" "default"
             "/data/audio/talk.mp3" true true w in
  engine "small" "auto" "default" = Ok hello_model
  /\ wm_transcribe hello_model "/data/audio/talk.mp3" 5
       = Ok (segments_of hello_world, english)
  /\ prints_all w (run_output false (segments_of hello_world) english) = true
  /\ (txt_path w "/data/audio/talk.mp3" ∉ denied w)
  /\ files (snd r) !! txt_path w "/data/audio/talk.mp3"
     = Some (PyStr.join (map seg_text hello_world)).
Proof.
  cbv zeta.
  assert (H1 : engine_yielding (segments_of hello_world) english
                 "small" "auto" "default" = Ok hello_model) by reflexivity.
  assert (H2 : wm_transcribe hello_model "/data/audio/talk.mp3" 5
                 = Ok (segments_of hello_world, english)) by reflexivity.
  assert (H3 : txt_path (empty_world "/home/u") "/data/audio/talk.mp3"
                 ∉ denied (empty_world "/home/u"))
    by (simpl; apply not_elem_of_empty).
  split; [exact H1|]. split; [exact H2|]. split; [reflexivity|].
  split; [exact H3|].
  exact (proj1 txt_document_is_verbatim _ hello_model english hello_world false
           "small" "auto" "default" "/data/audio/talk.mp3" true
           (empty_world "/home/u") H1 H2 eq_refl H3).
Defined.

(** ** The two writes are sequential *)

(** C7, as the code has it: with both outputs requested, in a run that
    reaches the writers (quiet, or verbose with every line printed), the
    [.txt] file is written first. If it cannot be opened the run raises and the [.srt]
    file is not opened; if the [.srt] file cannot be opened the run raises
    and the [.txt] file written before stays. *)
Theorem writes_are_sequential
    (engine : loader) (model : WhisperModel) (info : TranscriptionInfo)
    (l : list Segment) (verbose : bool)
    (model_size device compute_type filepath : string) (w : world) :
  engine model_size device compute_type = Ok model ->
  wm_transcribe model filepath 5 = Ok (segments_of l, info) ->
  prints_all w (run_output verbose (segments_of l) info) = true ->
  let r := transcribe engine verbose model_size device compute_type filepath
             true true w in
  (txt_path w filepath ∈ denied w ->
     fst r = Raise OSError
     /\ opened (snd r) = (opened w ++ [txt_path w filepath])%list
     /\ files (snd r) = files w)
  /\ (txt_path w filepath ∉ denied w -> srt_path w filepath ∈ denied w ->
        fst r = Raise OSError
        /\ opened (snd r)
           = (opened w ++ [txt_path w filepath; srt_path w filepath])%list
        /\ files (snd r)
           = <[txt_path w filepath := PyStr.join (map seg_text l)]> (files w)).
Proof.
  intros He Ht Hp. cbv zeta.
  rewrite (transcribe_of_call _ _ _ _ _ _ _ _ _ _ _ _ He Ht Hp). cbv zeta.
  rewrite failure_segments_of, yielded_segments_of.
  rewrite write_outputs_unfold. unfold txt_path, srt_path. split.
  - intros Hd. rewrite (write_txt_denied _ _ _ Hd). simpl. auto.
  - intros Hd Hs. rewrite (write_txt_ok _ _ _ Hd).
    rewrite write_srt_denied by exact Hs.
    rewrite txt_lines_of_segments. simpl.
    rewrite <- app_assoc. auto.
Qed.

Lemma writes_are_sequential_witness :
  let engine := engine_yielding (segments_of hello_world) english in
  let w := world_denying "/home/u" {[ "/home/u/talk.txt" ]} in
  let r := transcribe engine false "small" "auto" "default"
             "/data/audio/talk.mp3" true true w in
  engine "small" "auto" "default" = Ok hello_model
  /\ wm_transcribe hello_model "/data/audio/talk.mp3" 5
       = Ok (segments_of hello_world, english)
  /\ prints_all w (run_output false (segments_of hello_world) english) = true
  /\ (txt_path w "/data/audio/talk.mp3" ∈ denied w)
  /\ fst r = Raise OSError
  /\ opened (snd r) = (opened w ++ [txt_path w "/data/audio/talk.mp3"])%list
  /\ files (snd r) = files w.
Proof.
  cbv zeta.
  assert (H1 : engine_yielding (segments_of hello_world) english
                 "small" "auto" "default" = Ok hello_model) by reflexivity.
  assert (H2 : wm_transcribe hello_model "/data/audio/talk.mp3" 5
                 = Ok (segments_of hello_world, english)) by reflexivity.
  assert (H3 : txt_path (world_denying "/home/u" {[ "/home/u/talk.txt" ]})
                 "/data/audio/talk.mp3"
               ∈ denied (world_denying "/home/u" {[ "/home/u/talk.txt" ]}))
    by (unfold world_denying at 2; cbn [denied];
        apply elem_of_singleton_2; vm_compute; reflexivity).
  split; [exact H1|]. split; [exact H2|]. split; [reflexivity|].
  split; [exact H3|].
  exact (proj1 (writes_are_sequential _ hello_model english hello_world false
                  "small" "auto" "default" "/data/audio/talk.mp3"
                  (world_denying "/home/u" {[ "/home/u/talk.txt" ]})
                  H1 H2 eq_refl) H3).
Defined.

(** C7, the claim as stated fails under both policies. When the [.txt]
    file cannot be opened while the [.srt] file could, the [.srt] file is
    never opened, so the writes are not independent; when the [.srt] file
    cannot be opened, the [.txt] file is already written and stays, so the
    writes are not one atomic unit. *)
Lemma writes_neither_independent_nor_atomic :
  let engine := engine_yielding (segments_of hello_world) english in
  let run := fun w => transcribe engine false "small" "auto" "default"
                        "/data/audio/talk.mp3" true true w in
  let no_txt := run (world_denying "/home/u" {[ "/home/u/talk.txt" ]}) in
  let no_srt := run (world_denying "/home/u" {[ "/home/u/talk.srt" ]}) in
  (fst no_txt = Raise OSError
   /\ opened (snd no_txt) = ["/home/u/talk.txt"]
   /\ files (snd no_txt) !! "/home/u/talk.srt" = None)
  /\ (fst no_srt = Raise OSError
      /\ opened (snd no_srt) = ["/home/u/talk.txt"; "/home/u/talk.srt"]
      /\ files (snd no_srt) !! "/home/u/talk.txt" = Some "Hello. World."
      /\ files (snd no_srt) !! "/home/u/talk.srt" = None).
Proof. vm_compute. auto 10. Qed.

(** ** The stem of [dir/base.ext] *)

Lemma split_without_sep (sep : ascii) (s : string) :
  contains sep s = false -> PathLib.split sep s = [s].
Proof.
  induction s as [|c s IH]; intros H; [reflexivity|].
  simpl in H. apply orb_false_elim in H as [Hc Hs].
  simpl. rewrite Hc, (IH Hs). reflexivity.
Qed.

Lemma split_append (sep : ascii) (a b : string) :
  PathLib.split sep (a ++ String sep b)
    = (PathLib.split sep a ++ PathLib.split sep b)%list.
Proof.
  induction a as [|c a IH].
  - change ("" ++ String sep b) with (String sep b).
    simpl. now rewrite Ascii.eqb_refl.
  - rewrite append_cons. simpl. rewrite IH.
    destruct (Ascii.eqb c sep); [reflexivity|].
    pose proof (split_nonempty sep a) as Hne.
    destruct (PathLib.split sep a) as [|h t]; [contradiction | reflexivity].
Qed.

Lemma rfind_absent (c : ascii) (s : string) :
  contains c s = false -> PathLib.rfind c s = -1.
Proof.
  induction s as [|a s IH]; intros H; [reflexivity|].
  simpl in H. apply orb_false_elim in H as [Ha Hs].
  simpl. rewrite (IH Hs), Ha. reflexivity.
Qed.

Lemma rfind_last (c : ascii) (a b : string) :
  contains c b = false ->
  PathLib.rfind c (a ++ String c b) = Z.of_nat (String.length a).
Proof.
  intros Hb. induction a as [|x a IH].
  - change ("" ++ String c b) with (String c b).
    simpl. rewrite (rfind_absent c b Hb), Ascii.eqb_refl. reflexivity.
  - rewrite append_cons. simpl PathLib.rfind. rewrite IH.
    destruct (Z.eqb_spec (Z.of_nat (String.length a)) (-1)); [lia|].
    simpl String.length. lia.
Qed.

Lemma substring_prefix (a b : string) :
  substring 0 (String.length a) (a ++ b) = a.
Proof.
  induction a as [|x a IH].
  - destruct b; reflexivity.
  - rewrite append_cons. simpl. now rewrite IH.
Qed.


(** ** What the writers touch *)






(** ** Reading a timestamp back *)

Lemma digit_value_digit_char (v : Z) :
  0 <= v < 10 -> digit_value (PyStr.digit_char v) = Some v.
Proof.
  intros H.
  assert (Hb : digit_roundtrip v = true)
    by (apply (Z_below_forallb digit_roundtrip 10%N); [reflexivity | exact H]).
  unfold digit_roundtrip in Hb.
  destruct (digit_value (PyStr.digit_char v)) as [v'|]; [|discriminate].
  apply Z.eqb_eq in Hb. now subst.
Qed.

Lemma int_of_digits_append (a b : string) (acc : Z) :
  int_of_digits (a ++ b) acc =
    match int_of_digits a acc with
    | Some x => int_of_digits b x
    | None => None
    end.
Proof.
  revert acc. induction a as [|c a IH]; intros acc; [reflexivity|].
  rewrite append_cons. simpl. destruct (digit_value c); [apply IH | reflexivity].
Qed.

Lemma int_of_fixed_digits (d : nat) (f acc : Z) :
  0 <= f ->
  int_of_digits (fixed_digits d f) acc
    = Some (acc * 10 ^ Z.of_nat d + f mod 10 ^ Z.of_nat d).
Proof.
  revert f acc. induction d as [|d IH]; intros f acc Hf.
  - simpl. rewrite Z.mod_1_r. f_equal. lia.
  - simpl fixed_digits. rewrite int_of_digits_append, IH
      by (apply Z.div_pos; lia).
    cbn [int_of_digits].
    rewrite digit_value_digit_char by (apply Z.mod_pos_bound; lia).
    f_equal. rewrite Nat2Z.inj_succ, Z.pow_succ_r by lia.
    assert (Hp : 0 < 10 ^ Z.of_nat d) by (apply Z.pow_pos_nonneg; lia).
    rewrite (Z.rem_mul_r f 10 (10 ^ Z.of_nat d)) by lia. lia.
Qed.

Lemma substring_skip (a b : string) (m : nat) :
  substring (String.length a) m (a ++ b) = substring 0 m b.
Proof.
  induction a as [|x a IH]; [reflexivity|].
  rewrite append_cons. simpl. exact IH.
Qed.

Lemma substring_all (s : string) : substring 0 (String.length s) s = s.
Proof. induction s as [|c s IH]; simpl; [reflexivity | now rewrite IH]. Qed.

(** Two characters, then the rest. *)
Lemma two_chars (s : string) :
  String.length s = 2%nat -> exists c1 c2, s = String c1 (String c2 "").
Proof.
  destruct s as [|c1 [|c2 [|c3 s]]]; simpl; intros H; try discriminate.
  eauto.
Qed.

Lemma parse_clock_fraction (digits : nat) (isec f : Z) (sep : ascii) :
  0 <= isec < 86400 -> 0 <= f < 10 ^ Z.of_nat digits ->
  parse_timestamp digits
    (clock isec ++ String sep "" ++ fixed_digits digits f)
    = Some (isec * 10 ^ Z.of_nat digits + f).
Proof.
  intros Hi Hf. unfold clock.
  assert (Hh : 0 <= isec / 3600 < 100).
  { split; [apply Z.div_pos; lia | apply Z.div_lt_upper_bound; lia]. }
  assert (Hm : 0 <= isec / 60 mod 60 < 60) by (apply Z.mod_pos_bound; lia).
  assert (Hs : 0 <= isec mod 60 < 60) by (apply Z.mod_pos_bound; lia).
  pose proof (int_of_fixed_digits 2 (isec / 3600) 0 (proj1 Hh)) as Ph.
  pose proof (int_of_fixed_digits 2 (isec / 60 mod 60) 0 (proj1 Hm)) as Pm.
  pose proof (int_of_fixed_digits 2 (isec mod 60) 0 (proj1 Hs)) as Ps.
  pose proof (int_of_fixed_digits digits f 0 (proj1 Hf)) as Pf.
  pose proof (fixed_digits_length digits f) as Lf.
  destruct (two_chars _ (fixed_digits_length 2 (isec / 3600))) as (h1 & h2 & Eh).
  destruct (two_chars _ (fixed_digits_length 2 (isec / 60 mod 60))) as (m1 & m2 & Em).
  destruct (two_chars _ (fixed_digits_length 2 (isec mod 60))) as (s1 & s2 & Es).
  rewrite Eh in *. rewrite Em in *. rewrite Es in *.
  set (F := fixed_digits digits f) in *.
  change ((String h1 (String h2 "") ++ ":" ++ String m1 (String m2 "") ++ ":"
           ++ String s1 (String s2 "")) ++ String sep "" ++ F)
    with (String h1 (String h2 (String ":" (String m1 (String m2 (String ":"
           (String s1 (String s2 (String sep F))))))))).
  unfold parse_timestamp.
  change (substring 0 2 (String h1 (String h2 ?r)))
    with (String h1 (String h2 "")).
  cbn [substring String.length].
  replace (substring 0 digits F) with F by (now rewrite <- Lf, substring_all).
  rewrite Ph, Pm, Ps, Pf, Lf.
  change (S (S (S (S (S (S (S (S (S digits))))))))) with (9 + digits)%nat.
  rewrite Nat.eqb_refl. change (":" =? ":")%string with true.
  cbn [andb]. f_equal.
  change (10 ^ Z.of_nat 2) with 100.
  rewrite (Z.mod_small (isec / 3600)) by lia.
  rewrite (Z.mod_small (isec / 60 mod 60)) by lia.
  rewrite (Z.mod_small (isec mod 60)) by lia.
  rewrite (Z.mod_small f) by lia.
  assert (E : (isec / 3600 * 60 + isec / 60 mod 60) * 60 + isec mod 60 = isec).
  { pose proof (Z.div_mod isec 60). pose proof (Z.div_mod (isec / 60) 60).
    replace (isec / 3600) with (isec / 60 / 60)
      by (rewrite Z.div_div by lia; reflexivity).
    lia. }
  rewrite !Z.mul_0_l, !Z.add_0_l, E. reflexivity.
Qed.

(** ** Below one day the presets give a fixed-width timestamp *)

(** X1: for a count [n = round(seconds * 10**digits)] below one day, the preset
    gives the two-digit clock, the separator and exactly [digits] fraction
    digits, [9 + digits] characters in all, and reading the text back gives
    [n] again. *)
Lemma format_td_below_one_day
    (seconds : PyFloat.float) (sep : ascii) (digits : nat) (n : Z) :
  digits = 2%nat \/ digits = 3%nat ->
  rounded_count seconds digits = Ok n ->
  0 <= n < 86400 * 10 ^ Z.of_nat digits ->
  let out := clock (n / 10 ^ Z.of_nat digits) ++ String sep ""
             ++ fixed_digits digits (n mod 10 ^ Z.of_nat digits) in
  format_td seconds (String sep "") digits = Ok out
  /\ String.length out = (9 + digits)%nat
  /\ parse_timestamp digits out = Some n.
Proof.
  intros Hd Hn Hrange. cbv zeta.
  assert (Hp : 0 < 10 ^ Z.of_nat digits) by (apply Z.pow_pos_nonneg; lia).
  assert (Hi : 0 <= n / 10 ^ Z.of_nat digits < 86400).
  { split; [apply Z.div_pos; lia | apply Z.div_lt_upper_bound; lia]. }
  assert (Hf : 0 <= n mod 10 ^ Z.of_nat digits < 10 ^ Z.of_nat digits)
    by (apply Z.mod_pos_bound; exact Hp).
  split; [|split].
  - rewrite (format_td_of_count _ _ _ _ Hd Hn).
    rewrite (Z.div_small _ 86400 Hi). simpl Z.abs.
    change (0 >? 999999999) with false. cbv iota.
    now rewrite rendered_below_one_day.
  - unfold clock. rewrite !length_append, !fixed_digits_length. simpl. lia.
  - rewrite parse_clock_fraction by assumption.
    f_equal. rewrite Z.mul_comm. symmetry. apply Z.div_mod. lia.
Qed.

(** The product is rounded to a float before the count is taken: 0.0005,
    whose exact value lies above the midpoint, gives the count 0. *)
Remark product_is_rounded_first :
  format_to_srt_ts (PyFloat.literal 5 4) = Ok "00:00:00,000"
  /\ PyFloat.literal 5 4 = S754_finite false 4611686018427388 (-63)
  /\ PyFloat.scaled_magnitude 1000 4611686018427388 (-63) = 1.
Proof. repeat split; vm_compute; reflexivity. Qed.

(** * Further properties of the run *)

(** ** Closed forms of the two writers *)

Lemma write_txt_eq (filename : string) (segs : list segment_tuple) (w : world) :
  write_txt filename segs w =
    let p := resolve (cwd w) (filename ++ ".txt") in
    if decide (p ∈ denied w)
    then (Raise OSError, with_opened w (opened w ++ [p])%list)
    else (Ok tt, after_open w p (PyStr.join (txt_lines segs))).
Proof.
  cbv zeta. destruct (decide _) as [Hd|Hd];
    [apply write_txt_denied | apply write_txt_ok]; exact Hd.
Qed.

Lemma write_srt_eq (filename : string) (segs : list segment_tuple) (w : world) :
  write_srt filename segs w =
    let p := resolve (cwd w) (filename ++ ".srt") in
    if decide (p ∈ denied w)
    then (Raise OSError, with_opened w (opened w ++ [p])%list)
    else match srt_groups 1 segs with
         | Ok groups => (Ok tt, after_open w p (PyStr.join groups))
         | Raise e => (Raise e, after_open w p "")
         end.
Proof.
  cbv zeta. destruct (decide _) as [Hd|Hd]; [now apply write_srt_denied|].
  destruct (srt_groups 1 segs) as [groups|e] eqn:Hg;
    [now apply write_srt_ok | now apply write_srt_format_error].
Qed.

Lemma srt_groups_fail (l : list Segment) (counter : Z) :
  forallb timestamps_ok l = false ->
  exists e, srt_groups counter (map as_tuple l) = Raise e.
Proof.
  revert counter. induction l as [|s l IH]; intros counter H; [discriminate|].
  simpl in H. simpl. unfold srt_group, timestamps_ok in *. simpl.
  destruct (format_to_srt_ts (seg_start s)) as [a|e]; simpl; [|eauto].
  destruct (format_to_srt_ts (seg_end s)) as [b|e]; simpl; [|eauto].
  simpl in H. destruct (IH (counter + 1) H) as [e He]. rewrite He. simpl. eauto.
Qed.

Lemma engine_call_of (engine : loader) (model : WhisperModel)
    (model_size device compute_type filepath : string)
    (g : generator) (info : TranscriptionInfo) :
  engine model_size device compute_type = Ok model ->
  wm_transcribe model filepath 5 = Ok (g, info) ->
  engine_call engine model_size device compute_type filepath = Ok (g, info).
Proof. intros He Ht. now apply (engine_call_ok _ model). Qed.

(** ** Collection, printing, early failures *)

(** X2: the draining loop (quiet, or verbose with every line printed) keeps
    every yielded segment, in arrival order, as its
    [(start, end, text)] tuple: nothing is dropped, merged or reordered. *)
Theorem collect_keeps_arrival_order
    (engine : loader) (model : WhisperModel) (info : TranscriptionInfo)
    (l : list Segment) (verbose : bool)
    (model_size device compute_type filepath : string) (w : world) :
  engine model_size device compute_type = Ok model ->
  wm_transcribe model filepath 5 = Ok (segments_of l, info) ->
  prints_all w (run_output verbose (segments_of l) info) = true ->
  fst (collect engine verbose model_size device compute_type filepath w)
    = Ok (map (fun s => (seg_start s, seg_end s, seg_text s)) l).
Proof.
  intros He Ht Hp. rewrite collect_spec. cbv zeta.
  rewrite (engine_call_of _ _ _ _ _ _ _ _ He Ht), printed_ok.
  rewrite (print_failure_none _ _ Hp).
  unfold collected. simpl. now rewrite failure_segments_of, yielded_segments_of.
Qed.

Lemma collect_keeps_arrival_order_witness :
  engine_yielding (segments_of hello_world) english "small" "auto" "default"
    = Ok hello_model
  /\ wm_transcribe hello_model "talk.mp3" 5 = Ok (segments_of hello_world, english)
  /\ prints_all (empty_world "/home/u")
       (run_output true (segments_of hello_world) english) = true
  /\ fst (collect (engine_yielding (segments_of hello_world) english) true
             "small" "auto" "default" "talk.mp3" (empty_world "/home/u"))
     = Ok (map (fun s => (seg_start s, seg_end s, seg_text s)) hello_world).
Proof.
  assert (Hp : prints_all (empty_world "/home/u")
                 (run_output true (segments_of hello_world) english) = true)
    by (vm_compute; reflexivity).
  split; [reflexivity|]. split; [reflexivity|]. split; [exact Hp|].
  exact (collect_keeps_arrival_order _ hello_model english hello_world true
           "small" "auto" "default" "talk.mp3" (empty_world "/home/u")
           eq_refl eq_refl Hp).
Defined.

(** X3: a quiet run prints nothing. In a verbose run the lines to print
    are the language line and then one line per segment the generator
    yielded, in order. When all of them can be printed, they are the
    output of the run, whatever happens afterwards (the lines of the
    segments yielded before a failure of the generator included), and the
    writers print nothing. When one of them cannot be printed, the run
    raises the exception of that [print], having printed the lines before
    it and opened or changed no file. *)
Theorem run_prints_progress_only
    (engine : loader) (model : WhisperModel) (info : TranscriptionInfo)
    (g : generator) (verbose : bool)
    (model_size device compute_type filepath : string)
    (output_txt output_srt : bool) (w : world) :
  engine model_size device compute_type = Ok model ->
  wm_transcribe model filepath 5 = Ok (g, info) ->
  let r := transcribe engine verbose model_size device compute_type
             filepath output_txt output_srt w in
  let lines := if verbose
               then language_line info :: map progress_line (yielded g)
               else [] in
  (prints_all w lines = true -> stdout (snd r) = (stdout w ++ lines)%list)
  /\ (forall (done rest : list string) (line : string) (e : exn),
        lines = (done ++ line :: rest)%list ->
        prints_all w done = true -> unprintable w !! line = Some e ->
        fst r = Raise e
        /\ stdout (snd r) = (stdout w ++ done)%list
        /\ files (snd r) = files w /\ opened (snd r) = opened w).
Proof.
  intros He Ht. cbv zeta.
  change (if verbose then language_line info :: map progress_line (yielded g)
          else []) with (run_output verbose g info).
  split.
  - intros Hp.
    rewrite (transcribe_of_call _ _ _ _ _ _ _ _ _ _ _ _ He Ht Hp). cbv zeta.
    destruct (failure g); reflexivity.
  - intros done rest line e Hl Hd Hu.
    rewrite (transcribe_unprinted _ _ _ _ _ _ _ _ _ done e).
    + simpl. auto.
    + rewrite (engine_call_of _ _ _ _ _ _ _ _ He Ht), printed_ok, Hl.
      now apply print_failure_split.
Qed.

Lemma run_prints_progress_only_witness :
  let engine := engine_yielding (segments_of cafe_segments) english in
  let unprintable_line :=
    progress_line {| seg_id := 1; seg_start := PyFloat.literal 15 1;
                     seg_end := PyFloat.literal 325 2; seg_text := cafe |} in
  let w := world_rejecting "/home/u" [unprintable_line] in
  let r := transcribe engine true "small" "auto" "default" "talk.mp3"
             true true w in
  let done := [language_line english; "[0.00s -> 1.50s] Hello."] in
  engine "small" "auto" "default"
    = Ok {| wm_transcribe := fun _ _ => Ok (segments_of cafe_segments, english) |}
  /\ language_line english :: map progress_line (yielded (segments_of cafe_segments))
     = (done ++ unprintable_line :: [])%list
  /\ prints_all w done = true
  /\ unprintable w !! unprintable_line = Some UnicodeEncodeError
  /\ fst r = Raise UnicodeEncodeError
  /\ stdout (snd r) = (stdout w ++ done)%list
  /\ files (snd r) = files w /\ opened (snd r) = opened w.
Proof.
  cbv zeta.
  set (line := progress_line {| seg_id := 1; seg_start := PyFloat.literal 15 1;
                                seg_end := PyFloat.literal 325 2;
                                seg_text := cafe |}).
  set (w := world_rejecting "/home/u" [line]).
  set (done := [language_line english; "[0.00s -> 1.50s] Hello."]).
  assert (Hl : language_line english
                 :: map progress_line (yielded (segments_of cafe_segments))
               = (done ++ line :: [])%list) by (vm_compute; reflexivity).
  assert (Hd : prints_all w done = true) by (vm_compute; reflexivity).
  assert (Hu : unprintable w !! line = Some UnicodeEncodeError)
    by (vm_compute; reflexivity).
  split; [reflexivity|]. split; [exact Hl|]. split; [exact Hd|].
  split; [exact Hu|].
  exact (proj2 (run_prints_progress_only
                  (engine_yielding (segments_of cafe_segments) english)
                  {| wm_transcribe := fun _ _ =>
                       Ok (segments_of cafe_segments, english) |}
                  english (segments_of cafe_segments) true
                  "small" "auto" "default" "talk.mp3" true true w
                  eq_refl eq_refl)
           done [] line UnicodeEncodeError Hl Hd Hu).
Defined.

(** X4: when the constructor of the model or the call [model.transcribe] raises,
    the run raises the same exception and the world is left exactly as it
    was: nothing is printed, even when verbose, and no file is opened. *)
Theorem engine_call_failure_changes_nothing
    (engine : loader) (e : exn) (verbose : bool)
    (model_size device compute_type filepath : string)
    (output_txt output_srt : bool) (w : world) :
  engine model_size device compute_type = Raise e
  \/ (exists model, engine model_size device compute_type = Ok model
                    /\ wm_transcribe model filepath 5 = Raise e) ->
  transcribe engine verbose model_size device compute_type filepath
    output_txt output_srt w = (Raise e, w).
Proof.
  intros H. rewrite transcribe_spec. cbv zeta.
  assert (Hc : engine_call engine model_size device compute_type filepath = Raise e).
  { unfold engine_call. destruct H as [->|(model & -> & Ht)]; [reflexivity | exact Ht]. }
  rewrite Hc. simpl. now rewrite app_nil_r, with_stdout_same.
Qed.

Lemma engine_call_failure_changes_nothing_witness :
  ((fun _ _ _ => Raise EngineError) : loader) "small" "auto" "default"
    = Raise EngineError
  /\ transcribe (fun _ _ _ => Raise EngineError) true "small" "auto" "default"
       "talk.mp3" true true (empty_world "/home/u")
     = (Raise EngineError, empty_world "/home/u").
Proof.
  split; [reflexivity|].
  exact (engine_call_failure_changes_nothing (fun _ _ _ => Raise EngineError)
           EngineError true "small" "auto" "default" "talk.mp3" true true
           (empty_world "/home/u") (or_introl eq_refl)).
Defined.

(** ** When a run succeeds *)

Lemma srt_groups_cases (l : list Segment) :
  (forallb timestamps_ok l = true
   /\ exists groups, srt_groups 1 (map as_tuple l) = Ok groups)
  \/ (forallb timestamps_ok l = false
      /\ exists e, srt_groups 1 (map as_tuple l) = Raise e).
Proof.
  destruct (forallb timestamps_ok l) eqn:H.
  - left. split; [reflexivity|].
    destruct (srt_groups_blocks l 1 H) as (groups & Hg & _). eauto.
  - right. split; [reflexivity|]. now apply srt_groups_fail.
Qed.

Lemma write_outputs_ok_iff (filepath : string) (output_txt output_srt : bool)
    (l : list Segment) (w : world) :
  fst (write_outputs filepath output_txt output_srt (map as_tuple l) w) = Ok tt
  <-> (output_txt = true -> txt_path w filepath ∉ denied w)
      /\ (output_srt = true ->
            (srt_path w filepath ∉ denied w) /\ forallb timestamps_ok l = true).
Proof.
  rewrite write_outputs_unfold, write_txt_eq. cbv zeta.
  unfold txt_path, srt_path.
  set (txt := resolve (cwd w) (PathLib.stem filepath ++ ".txt")).
  set (srt := resolve (cwd w) (PathLib.stem filepath ++ ".srt")).
  assert (Hsrt : forall w1, cwd w1 = cwd w -> denied w1 = denied w ->
            (fst (write_srt (PathLib.stem filepath) (map as_tuple l) w1) = Ok tt
             <-> (srt ∉ denied w) /\ forallb timestamps_ok l = true)).
  { intros w1 Hc Hd. rewrite write_srt_eq. cbv zeta. rewrite Hc, Hd. fold srt.
    destruct (decide (srt ∈ denied w)) as [Hin|Hin]; simpl.
    - split; [discriminate | intros [H _]; contradiction].
    - destruct (srt_groups_cases l) as [[Hok [groups ->]]|[Hko [e ->]]]; simpl.
      + split; auto.
      + rewrite Hko. split; [discriminate | intros [_ H]; discriminate]. }
  destruct output_txt.
  - destruct (decide (txt ∈ denied w)) as [Hin|Hin]; simpl.
    + split; [discriminate | intros [H _]; now destruct (H eq_refl)].
    + destruct output_srt.
      * rewrite Hsrt by reflexivity. split.
        -- intros H. split; [intros _; exact Hin | intros _; exact H].
        -- intros [_ H]. now apply H.
      * simpl. split; [|reflexivity].
        intros _. split; [intros _; exact Hin | discriminate].
  - destruct output_srt.
    + rewrite Hsrt by reflexivity. split.
      * intros H. split; [discriminate | intros _; exact H].
      * intros [_ H]. now apply H.
    + simpl. split; [|reflexivity]. intros _. split; discriminate.
Qed.

(** X5: a run returns normally exactly when the generator ends without
    raising, every line of a verbose run can be printed, each requested
    file can be opened, and, when the [.srt] file is requested, every start
    and end formats as an SRT timestamp. *)
Theorem run_succeeds_iff
    (engine : loader) (model : WhisperModel) (info : TranscriptionInfo)
    (g : generator) (verbose : bool)
    (model_size device compute_type filepath : string)
    (output_txt output_srt : bool) (w : world) :
  engine model_size device compute_type = Ok model ->
  wm_transcribe model filepath 5 = Ok (g, info) ->
  fst (transcribe engine verbose model_size device compute_type filepath
         output_txt output_srt w) = Ok tt
  <-> failure g = None
      /\ (verbose = true ->
            forall line,
              In line (language_line info :: map progress_line (yielded g)) ->
              unprintable w !! line = None)
      /\ (output_txt = true -> txt_path w filepath ∉ denied w)
      /\ (output_srt = true ->
            (srt_path w filepath ∉ denied w)
            /\ forallb timestamps_ok (yielded g) = true).
Proof.
  intros He Ht.
  assert (Hlines : prints_all w (run_output verbose g info) = true
                   <-> (verbose = true ->
                        forall line,
                          In line (language_line info
                                   :: map progress_line (yielded g)) ->
                          unprintable w !! line = None)).
  { unfold prints_all, run_output. destruct verbose.
    - rewrite forallb_forall. unfold can_print. split.
      + intros H _ line Hin. specialize (H line Hin).
        destruct (unprintable w !! line); [discriminate | reflexivity].
      + intros H line Hin. now rewrite (H eq_refl line Hin).
    - split; [discriminate | reflexivity]. }
  rewrite <- Hlines.
  destruct (prints_all w (run_output verbose g info)) eqn:Hp.
  - rewrite (transcribe_of_call _ _ _ _ _ _ _ _ _ _ _ _ He Ht Hp). cbv zeta.
    destruct (failure g) as [e|]; simpl.
    + split; [discriminate | intros [H _]; discriminate].
    + rewrite write_outputs_ok_iff. tauto.
  - destruct (print_failure_some _ _ Hp) as (done & e & Hf).
    rewrite (transcribe_unprinted _ _ _ _ _ _ _ _ _ done e)
      by (now rewrite (engine_call_of _ _ _ _ _ _ _ _ He Ht), printed_ok).
    simpl. split; [discriminate | intros (_ & H & _); discriminate].
Qed.

Lemma run_succeeds_iff_witness :
  let engine := engine_yielding (segments_of hello_world) english in
  let w := empty_world "/home/u" in
  engine "small" "auto" "default" = Ok hello_model
  /\ wm_transcribe hello_model "talk.mp3" 5 = Ok (segments_of hello_world, english)
  /\ (fst (transcribe engine true "small" "auto" "default" "talk.mp3" true true w)
      = Ok tt
      <-> failure (segments_of hello_world) = None
          /\ (true = true ->
                forall line,
                  In line (language_line english
                           :: map progress_line (yielded (segments_of hello_world))) ->
                  unprintable w !! line = None)
          /\ (true = true -> txt_path w "talk.mp3" ∉ denied w)
          /\ (true = true ->
                (srt_path w "talk.mp3" ∉ denied w)
                /\ forallb timestamps_ok (yielded (segments_of hello_world))
                   = true)).
Proof.
  cbv zeta. split; [reflexivity|]. split; [reflexivity|].
  exact (run_succeeds_iff _ hello_model english (segments_of hello_world) true
           "small" "auto" "default" "talk.mp3" true true
           (empty_world "/home/u") eq_refl eq_refl).
Defined.

(** ** A timestamp that cannot be formatted *)

(** X6: with [output_srt], in a run that reaches the writers (quiet, or
    verbose with every line printed), when some start or end does not format (NaN, an
    infinity, a day count out of range), the run raises after the [.srt]
    file was opened: the file is left empty, whatever it held before. A
    requested [.txt] file is complete by then. *)
Theorem srt_format_failure_truncates
    (engine : loader) (model : WhisperModel) (info : TranscriptionInfo)
    (l : list Segment) (verbose : bool)
    (model_size device compute_type filepath : string)
    (output_txt : bool) (w : world) :
  engine model_size device compute_type = Ok model ->
  wm_transcribe model filepath 5 = Ok (segments_of l, info) ->
  prints_all w (run_output verbose (segments_of l) info) = true ->
  forallb timestamps_ok l = false ->
  srt_path w filepath ∉ denied w ->
  (output_txt = true -> txt_path w filepath ∉ denied w) ->
  let r := transcribe engine verbose model_size device compute_type filepath
             output_txt true w in
  (exists e, fst r = Raise e)
  /\ files (snd r) !! srt_path w filepath = Some ""
  /\ (output_txt = true ->
        files (snd r) !! txt_path w filepath
          = Some (PyStr.join (map seg_text l))).
Proof.
  intros He Ht Hp Hko Hsrt Htxt. cbv zeta.
  rewrite (transcribe_of_call _ _ _ _ _ _ _ _ _ _ _ _ He Ht Hp). cbv zeta.
  rewrite failure_segments_of, yielded_segments_of.
  destruct (srt_groups_fail l 1 Hko) as [e Hg].
  pose proof (txt_path_is_not_srt_path w filepath) as Hne.
  rewrite write_outputs_unfold, write_txt_eq. cbv zeta.
  unfold txt_path, srt_path in *.
  destruct output_txt.
  - rewrite decide_False by (now apply Htxt).
    rewrite write_srt_eq. cbv zeta. simpl cwd. simpl denied.
    rewrite decide_False by exact Hsrt. rewrite Hg. simpl.
    split; [eauto|]. split; [apply lookup_insert_eq|].
    intros _. rewrite lookup_insert_ne by congruence.
    rewrite lookup_insert_eq. now rewrite txt_lines_of_segments.
  - rewrite write_srt_eq. cbv zeta.
    rewrite decide_False by exact Hsrt. rewrite Hg. simpl.
    split; [eauto|]. split; [apply lookup_insert_eq | discriminate].
Qed.

Lemma srt_format_failure_truncates_witness :
  let engine := engine_yielding (segments_of nan_segment) english in
  let w := world_with_files "/home/u" {[ "/home/u/talk.srt" := "old subtitles" ]} in
  let r := transcribe engine false "small" "auto" "default" "talk.mp3"
             true true w in
  engine "small" "auto" "default" = Ok nan_model
  /\ wm_transcribe nan_model "talk.mp3" 5 = Ok (segments_of nan_segment, english)
  /\ prints_all w (run_output false (segments_of nan_segment) english) = true
  /\ forallb timestamps_ok nan_segment = false
  /\ (srt_path w "talk.mp3" ∉ denied w)
  /\ (true = true -> txt_path w "talk.mp3" ∉ denied w)
  /\ files w !! srt_path w "talk.mp3" = Some "old subtitles"
  /\ (exists e, fst r = Raise e)
  /\ files (snd r) !! srt_path w "talk.mp3" = Some ""
  /\ (true = true ->
        files (snd r) !! txt_path w "talk.mp3"
          = Some (PyStr.join (map seg_text nan_segment))).
Proof.
  cbv zeta.
  set (w := world_with_files "/home/u" {[ "/home/u/talk.srt" := "old subtitles" ]}).
  assert (H3 : forallb timestamps_ok nan_segment = false) by reflexivity.
  assert (H4 : srt_path w "talk.mp3" ∉ denied w)
    by (simpl; apply not_elem_of_empty).
  assert (H5 : true = true -> txt_path w "talk.mp3" ∉ denied w)
    by (intros _; simpl; apply not_elem_of_empty).
  split; [reflexivity|]. split; [reflexivity|]. split; [reflexivity|].
  split; [exact H3|]. split; [exact H4|]. split; [exact H5|].
  split; [vm_compute; reflexivity|].
  exact (srt_format_failure_truncates _ nan_model english nan_segment false
           "small" "auto" "default" "talk.mp3" true w eq_refl eq_refl eq_refl
           H3 H4 H5).
Defined.

(** ** Running twice *)

Lemma write_outputs_again (filepath : string) (output_txt output_srt : bool)
    (segs : list segment_tuple) (w w1 : world) :
  cwd w1 = cwd w -> denied w1 = denied w ->
  files w1 = files (snd (write_outputs filepath output_txt output_srt segs w)) ->
  fst (write_outputs filepath output_txt output_srt segs w1)
    = fst (write_outputs filepath output_txt output_srt segs w)
  /\ files (snd (write_outputs filepath output_txt output_srt segs w1))
     = files w1.
Proof.
  intros Hc Hd.
  rewrite !write_outputs_unfold, !write_txt_eq. cbv zeta. rewrite Hc, Hd.
  set (txt := resolve (cwd w) (PathLib.stem filepath ++ ".txt")).
  assert (Hsrt : forall w2, cwd w2 = cwd w -> denied w2 = denied w ->
            write_srt (PathLib.stem filepath) segs w2 =
              let srt := resolve (cwd w) (PathLib.stem filepath ++ ".srt") in
              if decide (srt ∈ denied w)
              then (Raise OSError, with_opened w2 (opened w2 ++ [srt])%list)
              else match srt_groups 1 segs with
                   | Ok groups => (Ok tt, after_open w2 srt (PyStr.join groups))
                   | Raise e => (Raise e, after_open w2 srt "")
                   end).
  { intros w2 Hc2 Hd2. rewrite write_srt_eq. cbv zeta. now rewrite Hc2, Hd2. }
  destruct output_txt; [destruct (decide (txt ∈ denied w))|];
    destruct output_srt; cbn [fst snd];
    rewrite ?Hsrt by (cbn; first [reflexivity | assumption]); cbv zeta;
    try destruct (decide (_ ∈ denied w));
    try destruct (srt_groups 1 segs);
    cbn [fst snd files after_open with_files with_opened];
    intros Hf; (split; [reflexivity|]); rewrite ?Hf;
    try reflexivity;
    apply map_eq; intros q; rewrite ?lookup_insert;
    repeat case_decide; congruence.
Qed.

(** X7: running again with the same arguments over the same engine output,
    from the world the first run left, gives the same outcome and leaves
    every file as the first run left it: the artifacts are rewritten with
    identical content. *)
Theorem second_run_changes_no_file
    (engine : loader) (verbose : bool)
    (model_size device compute_type filepath : string)
    (output_txt output_srt : bool) (w : world) :
  let first := transcribe engine verbose model_size device compute_type
                 filepath output_txt output_srt w in
  let second := transcribe engine verbose model_size device compute_type
                  filepath output_txt output_srt (snd first) in
  fst second = fst first /\ files (snd second) = files (snd first).
Proof.
  cbv zeta.
  rewrite (transcribe_spec engine verbose model_size device compute_type
             filepath output_txt output_srt w). cbv zeta.
  set (call := engine_call engine model_size device compute_type filepath).
  destruct (print_failure (unprintable w) (printed verbose call))
    as [[done e]|] eqn:Hp.
  - rewrite transcribe_spec. cbv zeta. fold call. cbn [snd unprintable with_stdout].
    rewrite Hp. simpl. auto.
  - destruct (collected call) as [segs|e] eqn:Hcall.
    + set (r1 := write_outputs filepath output_txt output_srt segs w).
      assert (Hcd : cwd (snd r1) = cwd w /\ denied (snd r1) = denied w
                    /\ unprintable (snd r1) = unprintable w).
      { unfold r1. rewrite write_outputs_unfold, write_txt_eq. cbv zeta.
        destruct output_txt; [destruct (decide _)|]; destruct output_srt;
          cbn [fst snd]; rewrite ?write_srt_eq; cbv zeta;
          try destruct (decide _); try destruct (srt_groups 1 segs);
          repeat split; reflexivity. }
      destruct Hcd as (Hc & Hd & Hu).
      rewrite transcribe_spec. cbv zeta. fold call.
      cbn [fst snd unprintable with_stdout]. rewrite Hu, Hp, Hcall.
      destruct (write_outputs_again filepath output_txt output_srt segs w
                  (with_stdout (snd r1) (stdout w ++ printed verbose call)%list)
                  Hc Hd eq_refl) as [H1 H2].
      fold r1 in H1. cbn [fst snd files with_stdout] in *. auto.
    + rewrite transcribe_spec. cbv zeta. fold call.
      cbn [snd unprintable with_stdout]. rewrite Hp, Hcall. simpl. auto.
Qed.

(** ** No segment at all *)

(** X8: when the generator yields nothing, in a quiet run or a verbose one
    whose language line is printed, each requested file is still
    created, empty, and the run returns normally. *)
Theorem no_segment_gives_empty_files
    (engine : loader) (model : WhisperModel) (info : TranscriptionInfo)
    (verbose : bool) (model_size device compute_type filepath : string)
    (output_txt output_srt : bool) (w : world) :
  engine model_size device compute_type = Ok model ->
  wm_transcribe model filepath 5 = Ok (GenStop, info) ->
  prints_all w (run_output verbose GenStop info) = true ->
  (output_txt = true -> txt_path w filepath ∉ denied w) ->
  (output_srt = true -> srt_path w filepath ∉ denied w) ->
  let r := transcribe engine verbose model_size device compute_type filepath
             output_txt output_srt w in
  fst r = Ok tt
  /\ (output_txt = true -> files (snd r) !! txt_path w filepath = Some "")
  /\ (output_srt = true -> files (snd r) !! srt_path w filepath = Some "").
Proof.
  intros He Ht Hp Htxt Hsrt. cbv zeta.
  rewrite (transcribe_of_call _ _ _ _ _ _ _ _ _ _ _ _ He Ht Hp). cbv zeta.
  cbn [failure yielded map].
  pose proof (txt_path_is_not_srt_path w filepath) as Hne.
  rewrite write_outputs_unfold, write_txt_eq. cbv zeta.
  unfold txt_path, srt_path in *.
  destruct output_txt, output_srt;
    rewrite ?decide_False by (now apply Htxt);
    rewrite ?write_srt_eq; cbv zeta; cbn [cwd denied after_open with_files with_opened];
    rewrite ?decide_False by (now apply Hsrt); simpl;
    (split; [reflexivity|]); split; intros H; try discriminate;
    rewrite ?lookup_insert_eq; try reflexivity.
  rewrite lookup_insert_ne by congruence. apply lookup_insert_eq.
Qed.

Lemma no_segment_gives_empty_files_witness :
  let engine := engine_yielding GenStop english in
  let w := empty_world "/home/u" in
  let r := transcribe engine false "small" "auto" "default" "talk.mp3"
             true true w in
  engine "small" "auto" "default" = Ok silent_model
  /\ wm_transcribe silent_model "talk.mp3" 5 = Ok (GenStop, english)
  /\ prints_all w (run_output false GenStop english) = true
  /\ (true = true -> txt_path w "talk.mp3" ∉ denied w)
  /\ (true = true -> srt_path w "talk.mp3" ∉ denied w)
  /\ fst r = Ok tt
  /\ (true = true -> files (snd r) !! txt_path w "talk.mp3" = Some "")
  /\ (true = true -> files (snd r) !! srt_path w "talk.mp3" = Some "").
Proof.
  cbv zeta.
  assert (H3 : true = true -> txt_path (empty_world "/home/u") "talk.mp3"
                 ∉ denied (empty_world "/home/u"))
    by (intros _; simpl; apply not_elem_of_empty).
  assert (H4 : true = true -> srt_path (empty_world "/home/u") "talk.mp3"
                 ∉ denied (empty_world "/home/u"))
    by (intros _; simpl; apply not_elem_of_empty).
  split; [reflexivity|]. split; [reflexivity|]. split; [reflexivity|].
  split; [exact H3|]. split; [exact H4|].
  exact (no_segment_gives_empty_files _ silent_model english false
           "small" "auto" "default" "talk.mp3" true true
           (empty_world "/home/u") eq_refl eq_refl eq_refl H3 H4).
Defined.

(** ** More on the stem *)

Lemma is_part_of_long_name (nm : string) :
  nm <> "" -> nm <> "." -> PathLib.is_part nm = true.
Proof.
  intros H1 H2. unfold PathLib.is_part.
  destruct (String.eqb_spec nm ""); [contradiction|].
  destruct (String.eqb_spec nm "."); [contradiction | reflexivity].
Qed.

Lemma name_of_bare (nm : string) :
  contains "/" nm = false -> nm <> "" -> nm <> "." -> PathLib.name nm = nm.
Proof.
  intros Hs H1 H2. unfold PathLib.name, PathLib.tail.
  rewrite (split_without_sep "/" nm Hs).
  rewrite (filter_cons_True _ nm []) by (now apply is_part_of_long_name).
  reflexivity.
Qed.

Lemma name_after_dir (dir nm : string) :
  contains "/" nm = false -> nm <> "" -> nm <> "." ->
  PathLib.name (dir ++ "/" ++ nm) = nm.
Proof.
  intros Hs H1 H2. unfold PathLib.name, PathLib.tail.
  change (dir ++ "/" ++ nm) with (dir ++ String "/" nm).
  rewrite split_append, (split_without_sep "/" nm Hs), filter_app.
  rewrite (filter_cons_True _ nm []) by (now apply is_part_of_long_name).
  rewrite filter_nil. apply List.last_last.
Qed.

Lemma contains_append (c : ascii) (a b : string) :
  contains c (a ++ b) = contains c a || contains c b.
Proof.
  induction a as [|x a IH]; [reflexivity|].
  rewrite append_cons. simpl. rewrite IH. now rewrite orb_assoc.
Qed.

Lemma stem_of_name_base_ext (path base ext : string) :
  PathLib.name path = base ++ "." ++ ext ->
  base <> "" -> ext <> "" -> contains "." ext = false ->
  PathLib.stem path = base.
Proof.
  intros Hname Hbase Hext Hed.
  assert (Hlen : String.length (base ++ "." ++ ext)
                 = (String.length base + 1 + String.length ext)%nat).
  { rewrite !length_append. simpl. lia. }
  assert (Hb1 : (0 < String.length base)%nat)
    by (destruct base; [contradiction | simpl; lia]).
  assert (He1 : (0 < String.length ext)%nat)
    by (destruct ext; [contradiction | simpl; lia]).
  assert (Hr : PathLib.rfind "." (base ++ "." ++ ext)
               = Z.of_nat (String.length base))
    by (apply (rfind_last "." base ext Hed)).
  unfold PathLib.stem. rewrite Hname. cbv zeta. rewrite Hr, Hlen.
  destruct (Z.ltb_spec 0 (Z.of_nat (String.length base))) as [_|]; [|lia].
  destruct (Z.ltb_spec (Z.of_nat (String.length base))
              (Z.of_nat (String.length base + 1 + String.length ext) - 1))
    as [_|]; [|lia].
  simpl andb. cbv iota. rewrite Nat2Z.id. apply substring_prefix.
Qed.

(** X9: for a [filepath] without directory, [base.ext], the stem is [base], so
    the artifacts are [<cwd>/base.txt] and [<cwd>/base.srt]: two audio files
    that differ in their last suffix only share their artifacts. *)
Theorem stem_of_bare_name (w : world) (base ext : string) :
  base <> "" -> contains "/" base = false ->
  ext <> "" -> contains "/" ext = false -> contains "." ext = false ->
  PathLib.stem (base ++ "." ++ ext) = base
  /\ txt_path w (base ++ "." ++ ext) = cwd w ++ "/" ++ base ++ ".txt"
  /\ srt_path w (base ++ "." ++ ext) = cwd w ++ "/" ++ base ++ ".srt".
Proof.
  intros Hbase Hbs Hext Hes Hed.
  assert (Hstem : PathLib.stem (base ++ "." ++ ext) = base).
  { apply (stem_of_name_base_ext _ base ext); try assumption.
    apply name_of_bare.
    - rewrite !contains_append, Hbs, Hes. reflexivity.
    - destruct base; [contradiction | discriminate].
    - destruct base as [|c [|c' base]]; [contradiction | | discriminate].
      destruct ext; [contradiction | discriminate]. }
  rewrite txt_path_in_cwd, srt_path_in_cwd, Hstem. auto.
Qed.

Lemma stem_of_bare_name_witness :
  "talk" <> "" /\ contains "/" "talk" = false
  /\ "mp3" <> "" /\ contains "/" "mp3" = false /\ contains "." "mp3" = false
  /\ PathLib.stem ("talk" ++ "." ++ "mp3") = "talk"
  /\ txt_path (empty_world "/home/u") ("talk" ++ "." ++ "mp3")
     = cwd (empty_world "/home/u") ++ "/" ++ "talk" ++ ".txt"
  /\ srt_path (empty_world "/home/u") ("talk" ++ "." ++ "mp3")
     = cwd (empty_world "/home/u") ++ "/" ++ "talk" ++ ".srt".
Proof.
  assert (H1 : "talk" <> "") by discriminate.
  assert (H3 : "mp3" <> "") by discriminate.
  split; [exact H1|]. split; [reflexivity|]. split; [exact H3|].
  split; [reflexivity|]. split; [reflexivity|].
  exact (stem_of_bare_name (empty_world "/home/u") "talk" "mp3"
           H1 eq_refl H3 eq_refl eq_refl).
Defined.

(** X10: a final component with no dot after its first character (no suffix, or
    a leading dot only) is its own stem, with or without a directory in
    front: the artifact names append [.txt] / [.srt] to the whole name. *)
Theorem stem_without_suffix (dir : string) (c : ascii) (rest : string) :
  contains "/" (String c rest) = false -> contains "." rest = false ->
  String c rest <> "." ->
  PathLib.stem (String c rest) = String c rest
  /\ PathLib.stem (dir ++ "/" ++ String c rest) = String c rest.
Proof.
  intros Hs Hd Hne.
  assert (Hr : PathLib.rfind "." (String c rest) <= 0).
  { simpl. rewrite (rfind_absent "." rest Hd). simpl.
    destruct (Ascii.eqb c "."); lia. }
  assert (H : forall p, PathLib.name p = String c rest ->
                        PathLib.stem p = String c rest).
  { intros p Hp. unfold PathLib.stem. rewrite Hp. cbv zeta.
    destruct (Z.ltb_spec 0 (PathLib.rfind "." (String c rest))); [lia|].
    reflexivity. }
  split; apply H; [apply name_of_bare | apply name_after_dir];
    try assumption; discriminate.
Qed.

Lemma stem_without_suffix_witness :
  contains "/" ".bashrc" = false /\ contains "." "bashrc" = false
  /\ ".bashrc" <> "."
  /\ PathLib.stem ".bashrc" = ".bashrc"
  /\ PathLib.stem ("/home/u" ++ "/" ++ ".bashrc") = ".bashrc".
Proof.
  assert (H3 : ".bashrc" <> ".") by discriminate.
  split; [reflexivity|]. split; [reflexivity|]. split; [exact H3|].
  exact (stem_without_suffix "/home/u" "." "bashrc" eq_refl eq_refl H3).
Defined.

(** ** The text line of a block *)

Lemma lstrip_spaces (a x : string) :
  all_spaces a = true -> PyStr.lstrip (a ++ x) = PyStr.lstrip x.
Proof.
  induction a as [|c a IH]; intros H; [reflexivity|].
  simpl in H. apply andb_prop in H as [Hc Ha].
  rewrite append_cons. simpl. rewrite Hc. now apply IH.
Qed.

Lemma lstrip_fixed (x : string) :
  starts_with_space x = false -> PyStr.lstrip x = x.
Proof. destruct x as [|c x]; simpl; [reflexivity | now intros ->]. Qed.

Lemma lstrip_no_leading (s : string) : starts_with_space (PyStr.lstrip s) = false.
Proof.
  induction s as [|c s IH]; [reflexivity|].
  simpl. destruct (PyStr.is_space c) eqn:Hc; [exact IH | simpl; exact Hc].
Qed.

Lemma rstrip_spaces (b : string) : all_spaces b = true -> PyStr.rstrip b = "".
Proof.
  induction b as [|c b IH]; intros H; [reflexivity|].
  simpl in H. apply andb_prop in H as [Hc Hb].
  simpl. now rewrite (IH Hb), Hc.
Qed.

Lemma rstrip_append_spaces (s b : string) :
  all_spaces b = true -> PyStr.rstrip (s ++ b) = PyStr.rstrip s.
Proof.
  intros Hb. induction s as [|c s IH].
  - change ("" ++ b) with b. now apply rstrip_spaces.
  - rewrite append_cons. simpl. now rewrite IH.
Qed.

Lemma rstrip_fixed (s : string) :
  ends_with_space s = false -> PyStr.rstrip s = s.
Proof.
  induction s as [|c s IH]; intros H; [reflexivity|].
  destruct s as [|c' s].
  - simpl in *. now rewrite H.
  - change (ends_with_space (String c (String c' s)))
      with (ends_with_space (String c' s)) in H.
    change (PyStr.rstrip (String c (String c' s)))
      with (match PyStr.rstrip (String c' s) with
            | EmptyString => if PyStr.is_space c then EmptyString
                             else String c EmptyString
            | r => String c r
            end).
    now rewrite (IH H).
Qed.

Lemma rstrip_no_trailing (s : string) : ends_with_space (PyStr.rstrip s) = false.
Proof.
  induction s as [|c s IH]; [reflexivity|].
  simpl. destruct (PyStr.rstrip s) as [|c' r] eqn:Hr.
  - destruct (PyStr.is_space c) eqn:Hc; simpl; [reflexivity | exact Hc].
  - exact IH.
Qed.

Lemma rstrip_keeps_start (s : string) :
  starts_with_space s = false -> starts_with_space (PyStr.rstrip s) = false.
Proof.
  destruct s as [|c s]; [reflexivity|]. simpl. intros Hc.
  destruct (PyStr.rstrip s); [rewrite Hc|]; simpl; exact Hc.
Qed.

Lemma strip_of_padded (a mid b : string) :
  all_spaces a = true -> all_spaces b = true -> trimmed mid = true ->
  PyStr.strip (a ++ mid ++ b) = mid.
Proof.
  intros Ha Hb Hm. unfold trimmed in Hm. apply andb_prop in Hm as [Hs He].
  apply negb_true_iff in Hs. apply negb_true_iff in He.
  unfold PyStr.strip. rewrite (lstrip_spaces a _ Ha).
  destruct mid as [|c mid].
  - change ("" ++ b) with b.
    assert (Hl : PyStr.lstrip b = "").
    { rewrite <- (append_empty_r b), (lstrip_spaces b "" Hb). reflexivity. }
    now rewrite Hl.
  - rewrite lstrip_fixed by (rewrite append_cons; exact Hs).
    rewrite (rstrip_append_spaces _ b Hb). now apply rstrip_fixed.
Qed.

(** X11: the text line of an SRT block is the text without the white space at
    its two ends, and only that: a text made of white space [a], a part
    [mid] with no white space at either end, and white space [b] gives the
    line [mid], with the white space inside [mid] kept; and whatever the
    text, the line neither starts nor ends with white space. *)
Theorem block_text_is_trimmed_only
    (counter : Z) (seg_start seg_end : PyFloat.float)
    (ts_start ts_end : string) :
  format_to_srt_ts seg_start = Ok ts_start ->
  format_to_srt_ts seg_end = Ok ts_end ->
  (forall a mid b : string,
     all_spaces a = true -> all_spaces b = true -> trimmed mid = true ->
     srt_group counter (seg_start, seg_end, a ++ mid ++ b)
       = Ok (PyStr.str_of_int counter ++ PyStr.nl
             ++ ts_start ++ " --> " ++ ts_end ++ PyStr.nl
             ++ mid ++ PyStr.nl ++ PyStr.nl))
  /\ (forall text : string,
        exists line,
          srt_group counter (seg_start, seg_end, text)
            = Ok (PyStr.str_of_int counter ++ PyStr.nl
                  ++ ts_start ++ " --> " ++ ts_end ++ PyStr.nl
                  ++ line ++ PyStr.nl ++ PyStr.nl)
          /\ trimmed line = true).
Proof.
  intros Hs He. split.
  - intros a mid b Ha Hb Hm. unfold srt_group. simpl. rewrite Hs, He. simpl.
    now rewrite (strip_of_padded a mid b Ha Hb Hm).
  - intros text. exists (PyStr.strip text). split.
    + unfold srt_group. simpl. rewrite Hs, He. reflexivity.
    + unfold trimmed, PyStr.strip.
      rewrite rstrip_no_trailing, rstrip_keeps_start by apply lstrip_no_leading.
      reflexivity.
Qed.

Lemma block_text_is_trimmed_only_witness :
  format_to_srt_ts (PyFloat.literal 0 0) = Ok "00:00:00,000"
  /\ format_to_srt_ts (PyFloat.literal 15 1) = Ok "00:00:01,500"
  /\ all_spaces "  " = true /\ all_spaces " " = true
  /\ trimmed "hello  world" = true
  /\ srt_group 1 (PyFloat.literal 0 0, PyFloat.literal 15 1,
                  "  " ++ "hello  world" ++ " ")
     = Ok (PyStr.str_of_int 1 ++ PyStr.nl
           ++ "00:00:00,000" ++ " --> " ++ "00:00:01,500" ++ PyStr.nl
           ++ "hello  world" ++ PyStr.nl ++ PyStr.nl).
Proof.
  assert (H1 : format_to_srt_ts (PyFloat.literal 0 0) = Ok "00:00:00,000")
    by (vm_compute; reflexivity).
  assert (H2 : format_to_srt_ts (PyFloat.literal 15 1) = Ok "00:00:01,500")
    by (vm_compute; reflexivity).
  split; [exact H1|]. split; [exact H2|].
  split; [reflexivity|]. split; [reflexivity|]. split; [reflexivity|].
  exact (proj1 (block_text_is_trimmed_only 1 (PyFloat.literal 0 0)
                  (PyFloat.literal 15 1) "00:00:00,000" "00:00:01,500" H1 H2)
           "  " "hello  world" " " eq_refl eq_refl eq_refl).
Defined.

(** ** The ordinal of a block *)

Lemma digits_of_value (fuel : nat) (n : Z) (acc : string) :
  0 <= n < 10 ^ Z.of_nat fuel ->
  int_of_digits (PyStr.digits_of fuel n acc) 0 = int_of_digits acc n.
Proof.
  revert n acc. induction fuel as [|fuel IH]; intros n acc Hn.
  - simpl in *. now replace n with 0 by lia.
  - rewrite Nat2Z.inj_succ, Z.pow_succ_r in Hn by lia.
    assert (Hd : digit_value (PyStr.digit_char (n mod 10)) = Some (n mod 10))
      by (apply digit_value_digit_char, Z.mod_pos_bound; lia).
    simpl. destruct (Z.eqb_spec (n / 10) 0) as [Hz|Hz].
    + cbn [int_of_digits]. rewrite Hd. f_equal.
      pose proof (Z.div_mod n 10). lia.
    + rewrite IH.
      * cbn [int_of_digits]. rewrite Hd. f_equal.
        pose proof (Z.div_mod n 10). lia.
      * split; [apply Z.div_pos; lia | apply Z.div_lt_upper_bound; lia].
Qed.

Lemma digits_of_head (fuel : nat) (n : Z) (acc : string) :
  0 < n < 10 ^ Z.of_nat fuel ->
  exists c rest, PyStr.digits_of fuel n acc = String c rest /\ c <> "0"%char.
Proof.
  revert n acc. induction fuel as [|fuel IH]; intros n acc Hn.
  - simpl in Hn. lia.
  - rewrite Nat2Z.inj_succ, Z.pow_succ_r in Hn by lia.
    simpl. destruct (Z.eqb_spec (n / 10) 0) as [Hz|Hz].
    + eexists _, _. split; [reflexivity|]. intros Hc.
      assert (Hm : 0 <= n mod 10 < 10) by (apply Z.mod_pos_bound; lia).
      pose proof (digit_value_digit_char _ Hm) as Hd.
      rewrite Hc in Hd. change (digit_value "0"%char) with (Some 0) in Hd.
      injection Hd as Hd.
      pose proof (Z.div_mod n 10). lia.
    + apply IH.
      assert (0 <= n / 10) by (apply Z.div_pos; lia).
      split; [lia | apply Z.div_lt_upper_bound; lia].
Qed.

Lemma enough_fuel (n : Z) :
  0 <= n -> n < 10 ^ Z.of_nat (S (Z.to_nat (Z.log2 n))).
Proof.
  intros Hn. rewrite Nat2Z.inj_succ, Z2Nat.id by apply Z.log2_nonneg.
  destruct (Z.eq_dec n 0) as [->|Hne].
  - simpl. lia.
  - pose proof (Z.log2_spec n) as Hs.
    assert (2 ^ Z.succ (Z.log2 n) <= 10 ^ Z.succ (Z.log2 n)).
    { apply Z.pow_le_mono_l. lia. }
    lia.
Qed.

(** X12: the ordinal line of a block is the plain decimal numeral of the
    counter: it reads back as the counter, and is not empty and has no
    leading zero, however many segments there are. *)
Theorem ordinal_is_a_decimal_numeral (counter : Z) :
  0 < counter ->
  int_of_digits (PyStr.str_of_int counter) 0 = Some counter
  /\ exists c rest, PyStr.str_of_int counter = String c rest /\ c <> "0"%char.
Proof.
  intros H. pose proof (enough_fuel counter ltac:(lia)) as Hf.
  destruct counter as [|p|p]; try lia.
  unfold PyStr.str_of_int. split.
  - now rewrite digits_of_value by lia.
  - apply digits_of_head. lia.
Qed.

Lemma ordinal_is_a_decimal_numeral_witness :
  0 < 1234
  /\ int_of_digits (PyStr.str_of_int 1234) 0 = Some 1234
  /\ exists c rest, PyStr.str_of_int 1234 = String c rest /\ c <> "0"%char.
Proof.
  assert (H : 0 < 1234) by reflexivity.
  split; [exact H|]. exact (ordinal_is_a_decimal_numeral 1234 H).
Defined.

(** ** Only start, end and text of a segment are used *)

Lemma progress_line_of_tuple (l l' : list Segment) :
  map as_tuple l = map as_tuple l' -> map progress_line l = map progress_line l'.
Proof.
  revert l'. induction l as [|s l IH]; intros [|s' l'] H; try discriminate.
  - reflexivity.
  - simpl in H. injection H as Hs He Ht Hl.
    simpl. unfold progress_line at 1 3. rewrite Hs, He, Ht.
    f_equal. now apply IH.
Qed.

(** X13: two engine outputs whose segments agree on start, end and text give the
    same run: same outcome, same files, same printed lines. The identifier
    of a segment has no influence. *)
Theorem run_depends_on_start_end_text_only
    (engine engine' : loader) (model model' : WhisperModel)
    (info : TranscriptionInfo) (l l' : list Segment) (verbose : bool)
    (model_size device compute_type filepath : string)
    (output_txt output_srt : bool) (w : world) :
  engine model_size device compute_type = Ok model ->
  wm_transcribe model filepath 5 = Ok (segments_of l, info) ->
  engine' model_size device compute_type = Ok model' ->
  wm_transcribe model' filepath 5 = Ok (segments_of l', info) ->
  map (fun s => (seg_start s, seg_end s, seg_text s)) l
    = map (fun s => (seg_start s, seg_end s, seg_text s)) l' ->
  transcribe engine verbose model_size device compute_type filepath
    output_txt output_srt w
  = transcribe engine' verbose model_size device compute_type filepath
      output_txt output_srt w.
Proof.
  intros He Ht He' Ht' Hl. rewrite !transcribe_spec. cbv zeta.
  rewrite (engine_call_of _ _ _ _ _ _ _ _ He Ht).
  rewrite (engine_call_of _ _ _ _ _ _ _ _ He' Ht').
  unfold collected, printed, progress. simpl.
  rewrite !failure_segments_of, !yielded_segments_of.
  change (map as_tuple l = map as_tuple l') in Hl.
  rewrite Hl. destruct verbose; [|reflexivity].
  now rewrite (progress_line_of_tuple l l' Hl).
Qed.

Lemma run_depends_on_start_end_text_only_witness :
  let engine := engine_yielding (segments_of hello_world) english in
  let engine' := engine_yielding (segments_of renumbered_hello_world) english in
  engine "small" "auto" "default" = Ok hello_model
  /\ wm_transcribe hello_model "talk.mp3" 5 = Ok (segments_of hello_world, english)
  /\ engine' "small" "auto" "default" = Ok renumbered_model
  /\ wm_transcribe renumbered_model "talk.mp3" 5
       = Ok (segments_of renumbered_hello_world, english)
  /\ map (fun s => (seg_start s, seg_end s, seg_text s)) hello_world
     = map (fun s => (seg_start s, seg_end s, seg_text s)) renumbered_hello_world
  /\ transcribe engine true "small" "auto" "default" "talk.mp3" true true
       (empty_world "/home/u")
     = transcribe engine' true "small" "auto" "default" "talk.mp3" true true
         (empty_world "/home/u").
Proof.
  cbv zeta.
  split; [reflexivity|]. split; [reflexivity|]. split; [reflexivity|].
  split; [reflexivity|]. split; [reflexivity|].
  exact (run_depends_on_start_end_text_only _ _ hello_model renumbered_model
           english hello_world renumbered_hello_world true
           "small" "auto" "default" "talk.mp3" true true
           (empty_world "/home/u") eq_refl eq_refl eq_refl eq_refl eq_refl).
Defined.

(** ** A witness for the timestamps below one day *)

Lemma format_td_below_one_day_witness :
  (3 = 2 \/ 3 = 3)%nat
  /\ rounded_count (PyFloat.literal 3723456 3) 3 = Ok 3723456
  /\ 0 <= 3723456 < 86400 * 10 ^ Z.of_nat 3
  /\ format_td (PyFloat.literal 3723456 3) (String "," "") 3
     = Ok (clock (3723456 / 10 ^ Z.of_nat 3) ++ String "," ""
           ++ fixed_digits 3 (3723456 mod 10 ^ Z.of_nat 3))
  /\ format_to_srt_ts (PyFloat.literal 3723456 3) = Ok "01:02:03,456".
Proof.
  assert (Hd : (3 = 2 \/ 3 = 3)%nat) by (right; reflexivity).
  assert (Hn : rounded_count (PyFloat.literal 3723456 3) 3 = Ok 3723456)
    by (vm_compute; reflexivity).
  assert (Hr : 0 <= 3723456 < 86400 * 10 ^ Z.of_nat 3)
    by (split; [discriminate | reflexivity]).
  split; [exact Hd|]. split; [exact Hn|]. split; [exact Hr|].
  split; [|vm_compute; reflexivity].
  exact (proj1 (format_td_below_one_day (PyFloat.literal 3723456 3) ","
                  3%nat 3723456 Hd Hn Hr)).
Defined.

(** ** The blocks of the SRT document *)

Lemma lstrip_decompose (s : string) :
  exists a, s = a ++ PyStr.lstrip s /\ all_spaces a = true.
Proof.
  induction s as [|c s IH].
  - exists "". split; reflexivity.
  - simpl. destruct (PyStr.is_space c) eqn:Hc.
    + destruct IH as (a & Hs & Ha). exists (String c a). split.
      * rewrite append_cons. now rewrite <- Hs.
      * simpl. now rewrite Hc, Ha.
    + exists "". split; reflexivity.
Qed.

Lemma rstrip_decompose (s : string) :
  exists b, s = PyStr.rstrip s ++ b /\ all_spaces b = true.
Proof.
  induction s as [|c s IH].
  - exists "". split; reflexivity.
  - destruct IH as (b & Hs & Hb). simpl.
    destruct (PyStr.rstrip s) as [|c' r] eqn:Hr.
    + change ("" ++ b) with b in Hs. subst b.
      destruct (PyStr.is_space c) eqn:Hc.
      * exists (String c s). split; [reflexivity|]. simpl. now rewrite Hc, Hb.
      * exists s. split; [reflexivity | exact Hb].
    + exists b. split; [|exact Hb].
      rewrite append_cons. now rewrite <- Hs.
Qed.

Lemma strip_decompose (s : string) :
  exists a b, s = a ++ PyStr.strip s ++ b
              /\ all_spaces a = true /\ all_spaces b = true
              /\ trimmed (PyStr.strip s) = true.
Proof.
  destruct (lstrip_decompose s) as (a & Hs & Ha).
  destruct (rstrip_decompose (PyStr.lstrip s)) as (b & Hl & Hb).
  exists a, b. split; [|split; [exact Ha | split; [exact Hb|]]].
  - unfold PyStr.strip. now rewrite <- Hl.
  - unfold trimmed, PyStr.strip.
    rewrite rstrip_no_trailing, rstrip_keeps_start by apply lstrip_no_leading.
    reflexivity.
Qed.

Lemma str_of_int_positive (n : Z) :
  0 < n ->
  int_of_digits (PyStr.str_of_int n) 0 = Some n
  /\ exists c rest, PyStr.str_of_int n = String c rest /\ c <> "0"%char.
Proof.
  intros H. pose proof (enough_fuel n ltac:(lia)) as Hf.
  destruct n as [|p|p]; try lia.
  unfold PyStr.str_of_int. split.
  - now rewrite digits_of_value by lia.
  - apply digits_of_head. lia.
Qed.

(** C3, as the code has it: with [output_srt], a run that reaches the
    writers (quiet, or verbose with every line printed) over segments [l]
    whose starts and ends all format as SRT timestamps writes to the
    [.srt] path the concatenation of [length l] blocks. The block at
    position [k] (from 0) is: the decimal numeral of [k + 1] (it reads
    back as [k + 1] and has no leading zero), a line feed, the SRT
    timestamps of the start and of the end joined by [" --> "], a line
    feed, the text without the white space at its two ends, and two line
    feeds. The identifiers of the segments play no part. *)
Theorem srt_document_blocks
    (engine : loader) (model : WhisperModel) (info : TranscriptionInfo)
    (l : list Segment) (verbose : bool)
    (model_size device compute_type filepath : string)
    (output_txt : bool) (w : world) :
  engine model_size device compute_type = Ok model ->
  wm_transcribe model filepath 5 = Ok (segments_of l, info) ->
  prints_all w (run_output verbose (segments_of l) info) = true ->
  forallb timestamps_ok l = true ->
  srt_path w filepath ∉ denied w ->
  (output_txt = true -> txt_path w filepath ∉ denied w) ->
  let r := transcribe engine verbose model_size device compute_type filepath
             output_txt true w in
  exists blocks : list string,
    fst r = Ok tt
    /\ files (snd r) !! srt_path w filepath = Some (PyStr.join blocks)
    /\ length blocks = length l
    /\ forall (k : nat) (s : Segment), l !! k = Some s ->
         exists ordinal ts_start ts_end line before after : string,
           blocks !! k
             = Some (ordinal ++ line_feed
                     ++ ts_start ++ " --> " ++ ts_end ++ line_feed
                     ++ line ++ line_feed ++ line_feed)
           /\ int_of_digits ordinal 0 = Some (Z.of_nat k + 1)
           /\ (exists c rest, ordinal = String c rest /\ c <> "0"%char)
           /\ format_to_srt_ts (seg_start s) = Ok ts_start
           /\ format_to_srt_ts (seg_end s) = Ok ts_end
           /\ seg_text s = before ++ line ++ after
           /\ all_spaces before = true /\ all_spaces after = true
           /\ trimmed line = true.
Proof.
  intros He Ht Hp Hok Hsrt Htxt. cbv zeta.
  destruct (srt_groups_blocks l 1 Hok) as (blocks & Hblocks & Hlen & Hnth).
  exists blocks.
  rewrite (transcribe_of_call _ _ _ _ _ _ _ _ _ _ _ _ He Ht Hp). cbv zeta.
  rewrite failure_segments_of, yielded_segments_of.
  rewrite write_outputs_unfold.
  assert (Hrun : forall w1, cwd w1 = cwd w -> denied w1 = denied w ->
            let r := write_srt (PathLib.stem filepath) (map as_tuple l) w1 in
            fst r = Ok tt
            /\ files (snd r) !! srt_path w filepath = Some (PyStr.join blocks)).
  { intros w1 Hcwd Hden. cbv zeta. unfold srt_path in *.
    rewrite (write_srt_ok _ _ blocks); [| rewrite Hcwd, Hden; exact Hsrt | exact Hblocks].
    simpl. rewrite Hcwd. split; [reflexivity | apply lookup_insert_eq]. }
  assert (Hfinal : forall (k : nat) (s : Segment), l !! k = Some s ->
            exists ordinal ts_start ts_end line before after : string,
              blocks !! k
                = Some (ordinal ++ line_feed
                        ++ ts_start ++ " --> " ++ ts_end ++ line_feed
                        ++ line ++ line_feed ++ line_feed)
              /\ int_of_digits ordinal 0 = Some (Z.of_nat k + 1)
              /\ (exists c rest, ordinal = String c rest /\ c <> "0"%char)
              /\ format_to_srt_ts (seg_start s) = Ok ts_start
              /\ format_to_srt_ts (seg_end s) = Ok ts_end
              /\ seg_text s = before ++ line ++ after
              /\ all_spaces before = true /\ all_spaces after = true
              /\ trimmed line = true).
  { intros k s Hk. destruct (Hnth k s Hk) as (a & b & Ha & Hb & Hk').
    destruct (strip_decompose (seg_text s)) as (before & after & Htext & H1 & H2 & H3).
    destruct (str_of_int_positive (Z.of_nat k + 1) ltac:(lia)) as [Hread Hhead].
    exists (PyStr.str_of_int (Z.of_nat k + 1)), a, b,
           (PyStr.strip (seg_text s)), before, after.
    split.
    { rewrite Hk'. unfold srt_block. rewrite (Z.add_comm 1). reflexivity. }
    repeat split; assumption. }
  destruct output_txt.
  - unfold txt_path in Htxt. rewrite (write_txt_ok _ _ _ (Htxt eq_refl)).
    destruct (Hrun (after_open w (resolve (cwd w) (PathLib.stem filepath ++ ".txt"))
                      (PyStr.join (txt_lines (map as_tuple l))))
                eq_refl eq_refl) as [H1 H2].
    simpl. auto.
  - destruct (Hrun w eq_refl eq_refl) as [H1 H2]. simpl. auto.
Qed.

Lemma srt_document_blocks_witness :
  let engine := engine_yielding (segments_of hello_world) english in
  let w := empty_world "/home/u" in
  let r := transcribe engine false "small" "auto" "default"
             "/data/audio/talk.mp3" true true w in
  engine "small" "auto" "default" = Ok hello_model
  /\ wm_transcribe hello_model "/data/audio/talk.mp3" 5
       = Ok (segments_of hello_world, english)
  /\ prints_all w (run_output false (segments_of hello_world) english) = true
  /\ forallb timestamps_ok hello_world = true
  /\ (srt_path w "/data/audio/talk.mp3" ∉ denied w)
  /\ (true = true -> txt_path w "/data/audio/talk.mp3" ∉ denied w)
  /\ exists blocks : list string,
       fst r = Ok tt
       /\ files (snd r) !! srt_path w "/data/audio/talk.mp3"
          = Some (PyStr.join blocks)
       /\ length blocks = length hello_world
       /\ forall (k : nat) (s : Segment), hello_world !! k = Some s ->
            exists ordinal ts_start ts_end line before after : string,
              blocks !! k
                = Some (ordinal ++ line_feed
                        ++ ts_start ++ " --> " ++ ts_end ++ line_feed
                        ++ line ++ line_feed ++ line_feed)
              /\ int_of_digits ordinal 0 = Some (Z.of_nat k + 1)
              /\ (exists c rest, ordinal = String c rest /\ c <> "0"%char)
              /\ format_to_srt_ts (seg_start s) = Ok ts_start
              /\ format_to_srt_ts (seg_end s) = Ok ts_end
              /\ seg_text s = before ++ line ++ after
              /\ all_spaces before = true /\ all_spaces after = true
              /\ trimmed line = true.
Proof.
  cbv zeta.
  assert (H1 : engine_yielding (segments_of hello_world) english
                 "small" "auto" "default" = Ok hello_model) by reflexivity.
  assert (H2 : wm_transcribe hello_model "/data/audio/talk.mp3" 5
                 = Ok (segments_of hello_world, english)) by reflexivity.
  assert (Hp : prints_all (empty_world "/home/u")
                 (run_output false (segments_of hello_world) english) = true)
    by reflexivity.
  assert (H3 : forallb timestamps_ok hello_world = true)
    by (vm_compute; reflexivity).
  assert (H4 : srt_path (empty_world "/home/u") "/data/audio/talk.mp3"
                 ∉ denied (empty_world "/home/u"))
    by (simpl; apply not_elem_of_empty).
  assert (H5 : true = true ->
               txt_path (empty_world "/home/u") "/data/audio/talk.mp3"
                 ∉ denied (empty_world "/home/u"))
    by (intros _; simpl; apply not_elem_of_empty).
  split; [exact H1|]. split; [exact H2|]. split; [exact Hp|].
  split; [exact H3|]. split; [exact H4|]. split; [exact H5|].
  exact (srt_document_blocks _ hello_model english hello_world false
           "small" "auto" "default" "/data/audio/talk.mp3" true
           (empty_world "/home/u") H1 H2 Hp H3 H4 H5).
Defined.

(** C3, the claim as stated fails: a segment that starts and ends at 1e300
    seconds (non-negative, finite, end not before start) cannot be
    formatted, so the run raises and the [.srt] file holds no block. *)
Lemma unformattable_segment_gives_no_block :
  let engine := engine_yielding (segments_of late_segment) english in
  let r := transcribe engine false "small" "auto" "default" "talk.mp3"
             false true (empty_world "/home/u") in
  length late_segment = 1%nat
  /\ PyFloat.is_finite (PyFloat.literal (10 ^ 300) 0) = true
  /\ PyFloat.is_negative (PyFloat.literal (10 ^ 300) 0) = false
  /\ format_to_srt_ts (PyFloat.literal (10 ^ 300) 0) = Raise OverflowError
  /\ fst r = Raise OverflowError
  /\ files (snd r) !! "/home/u/talk.srt" = Some "".
Proof. cbv zeta. repeat split; vm_compute; reflexivity. Qed.
